(** * Expression trees of [solid-abstract-syntax-tree]

    A shallow embedding of the JavaScript modules

      - [utils/number]        ([isNumber]),
      - [modules/print]       ([printValue], [printExpression]),
      - [modules/validation]  ([validateValue], [validateExpression],
                               [validateDivide]),
      - [modules/arithmetic]  ([makeValue], [makeAdd], [makeSubtract],
                               [makeMultiply], [makeDivide]),

    and of the composition root [tree.js], which instantiates the five public
    constructors [Value], [Add], [Subtract], [Multiply] and [Divide] and
    builds one tree with them.

    How the language is modelled:

      - Numbers are IEEE 754 binary64 values: Rocq's primitive [float]s,
        whose operations are the machine's.
      - Strings are [string]s; the division sign U+00F7 of [makeDivide] is
        its two UTF-8 bytes.
      - The constructors take any value: a primitive, or an object. Of an
        object the program reads two properties, [result] and [toString];
        an object is the pair of what a lookup of these finds, a function or
        something that cannot be called. The program assigns to no property,
        so objects are immutable values; getters and proxies are left out.
      - A function of an object that the program did not create may throw
        and may change the state of its surroundings, so calls live in a
        state-and-exception monad over the state of a host. A [throw]
        carries an [Error] or a [TypeError]. *)

From Stdlib Require Import ZArith String Ascii List Bool Lia.
From Stdlib Require Import DecimalString.
From Stdlib Require Import PrimFloat SpecFloat FloatOps.
Import ListNotations.

Local Open Scope string_scope.

(* ================================================================= *)
(** ** Number::toString *)

(** The language's conversion of a number to a string (ECMA-262,
    Number::toString with radix 10), on which [printValue] and the message of
    [validateValue] rest: the shortest decimal that reads back as the same
    binary64 value, the closest one among the shortest. *)

Module NumberToString.

Local Open Scope Z_scope.

(** [cmp_scaled a p b g] compares [a * 10^p] with [b * 2^g]. *)
Definition cmp_scaled (a p b g : Z) : comparison :=
  Z.compare (a * 10 ^ Z.max p 0 * 2 ^ Z.max (- g) 0)
            (b * 10 ^ Z.max (- p) 0 * 2 ^ Z.max g 0).

(** The rounding interval of [m * 2^e], in units of [2^(e-2)]: the decimals
    strictly between the two bounds read back as [m * 2^e], the bounds
    themselves do when [m] is even (round half to even). *)
Definition interval_low (m e : Z) : Z :=
  if (m =? 2 ^ 52) && (-1074 <? e) then 4 * m - 1 else 4 * m - 2.

Definition interval_high (m : Z) : Z := 4 * m + 2.

Definition reads_back (m e c p : Z) : bool :=
  let g := e - 2 in
  let lo := cmp_scaled c p (interval_low m e) g in
  let hi := cmp_scaled c p (interval_high m) g in
  match lo, hi with
  | Gt, Lt => true
  | Eq, _ | _, Eq => Z.even m
  | _, _ => false
  end.

(** The least [n] from [n0] on with [m * 2^e < 10^n]. *)
Fixpoint magnitude (fuel : nat) (m e n : Z) : Z :=
  match fuel with
  | O => n
  | S fuel' =>
      match cmp_scaled 1 n m e with
      | Gt => n
      | _ => magnitude fuel' m e (n + 1)
      end
  end.

Definition exponent10 (m e : Z) : Z :=
  magnitude 6 m e ((Z.log2 m + e) * 1233 / 4096 - 1).

(** [floor (m * 2^e / 10^p)]. *)
Definition floor_scaled (m e p : Z) : Z :=
  (m * 2 ^ Z.max e 0 * 10 ^ Z.max (- p) 0)
    / (2 ^ Z.max (- e) 0 * 10 ^ Z.max p 0).

(** Is [c * 10^p] at least as close to [m * 2^e] as [(c+1) * 10^p]?  On a
    tie the even one of the two is taken. *)
Definition lower_is_closer (m e c p : Z) : bool :=
  match cmp_scaled (2 * c + 1) p (2 * m) e with
  | Gt => true
  | Lt => false
  | Eq => Z.even c
  end.

(** The candidate with [k] digits, if one reads back. *)
Definition candidate (m e n k : Z) : option Z :=
  let p := n - k in
  let c := floor_scaled m e p in
  match reads_back m e c p, reads_back m e (c + 1) p with
  | true, true => Some (if lower_is_closer m e c p then c else c + 1)
  | true, false => Some c
  | false, true => Some (c + 1)
  | false, false => None
  end.

(** The shortest candidate: the digits [s] and the power [p] of ten. *)
Fixpoint shortest (fuel : nat) (m e n k : Z) : Z * Z :=
  match fuel with
  | O => (floor_scaled m e (n - k), n - k)
  | S fuel' =>
      match candidate m e n k with
      | Some c => (c, n - k)
      | None => shortest fuel' m e n (k + 1)
      end
  end.

Definition digits_of (s : Z) : string :=
  NilZero.string_of_uint (N.to_uint (Z.to_N s)).

Fixpoint zeros (n : nat) : string :=
  match n with
  | O => EmptyString
  | S n' => String "0" (zeros n')
  end.

(** Removes the zeros at the end of a string of digits. *)
Fixpoint strip_zeros (d : string) : string :=
  match d with
  | EmptyString => EmptyString
  | String c d' =>
      match strip_zeros d' with
      | EmptyString => if Ascii.eqb c "0" then EmptyString else String c EmptyString
      | rest => String c rest
      end
  end.

Definition zlength (d : string) : Z := Z.of_nat (String.length d).

(** Steps 6 to 10 of Number::toString: [d] holds the [k] significant
    digits, and the value is [0.d * 10^n]. *)
Definition layout (d : string) (n : Z) : string :=
  let k := zlength d in
  if (k <=? n) && (n <=? 21) then
    (d ++ zeros (Z.to_nat (n - k)))%string
  else if (0 <? n) && (n <=? 21) then
    (substring 0 (Z.to_nat n) d ++ "."
       ++ substring (Z.to_nat n) (Z.to_nat (k - n)) d)%string
  else if (-6 <? n) && (n <=? 0) then
    ("0." ++ zeros (Z.to_nat (- n)) ++ d)%string
  else
    let e := n - 1 in
    let sign := if e <? 0 then "-" else "+" in
    let mant :=
      if k =? 1 then d
      else (substring 0 1 d ++ "." ++ substring 1 (Z.to_nat (k - 1)) d)%string in
    (mant ++ "e" ++ sign ++ digits_of (Z.abs e))%string.

(** A positive finite [m * 2^e]. *)
Definition positive_toString (m e : Z) : string :=
  let n := exponent10 m e in
  let '(s, p) := shortest 17 m e n 1 in
  let d := digits_of s in
  layout (strip_zeros d) (p + zlength d).

Definition toString (x : float) : string :=
  match Prim2SF x with
  | S754_nan => "NaN"
  | S754_zero _ => "0"
  | S754_infinity false => "Infinity"
  | S754_infinity true => "-Infinity"
  | S754_finite false m e => positive_toString (Zpos m) e
  | S754_finite true m e => ("-" ++ positive_toString (Zpos m) e)%string
  end.

End NumberToString.

(* ================================================================= *)
(** ** JavaScript values and completions *)

(** The double quote of the messages. *)
Definition dquote : string := String "034"%char EmptyString.

Inductive primitive : Type :=
| Undefined
| Null
| Boolean (b : bool)
| Number (x : float)
| Str (s : string)
| Symbol (description : string).

(** What a [throw] carries: the program throws [new Error(message)]; the
    language itself throws [TypeError]s (a call of something that is not a
    function, a conversion that does not exist). The text of a [TypeError]
    is the engine's; no statement below depends on it. *)
Inductive exn : Type :=
| Error (message : string)
| TypeError (message : string).

Inductive completion (A : Type) : Type :=
| Return (a : A)
| Throw (e : exn).

Arguments Return {A} a.
Arguments Throw {A} e.

(** The host of the program: the state of whatever lives outside it, which
    the methods of an object handed to a constructor may read and change, and
    the language's numeric value of a string (ECMA-262, StringToNumber), which
    the arithmetic operators apply to operands that are strings. *)
Class Host : Type := {
  State : Type;
  StringToNumber : string -> float
}.

(** Computations that may throw and may change the state of the host. *)
Definition M `{Host} (A : Type) : Type := State -> completion A * State.

Definition ret `{Host} {A} (a : A) : M A := fun s => (Return a, s).

Definition throw `{Host} {A} (e : exn) : M A := fun s => (Throw e, s).

Definition bind `{Host} {A B} (m : M A) (k : A -> M B) : M B :=
  fun s =>
    match m s with
    | (Return a, s') => k a s'
    | (Throw e, s') => (Throw e, s')
    end.

Definition lift `{Host} {A} (c : completion A) : M A := fun s => (c, s).

Notation "x <- m ;; k" := (bind m (fun x => k))
  (at level 61, m at next level, right associativity).
Notation "m ;;; k" := (bind m (fun _ => k))
  (at level 61, right associativity).

Section Program.

Context {host : Host}.

(** A property of an object, as a lookup finds it (own or inherited):
    a function without parameters, or a value that cannot be called
    ([Data Undefined] for a property that is absent). *)
Inductive property (V : Type) : Type :=
| Data (p : primitive)
| Method (body : M V).

Arguments Data {V} p.
Arguments Method {V} body.

(** A value: a primitive, or an object, of which the program reads the
    properties [result] and [toString] only. *)
#[warnings="-register-all"]
Inductive value : Type :=
| Prim (p : primitive)
| Obj (result toString : property value).

(* --------------------------------------------------------------- *)
(** *** Conversions of the language *)

Definition ToBoolean (p : primitive) : bool :=
  match p with
  | Undefined | Null => false
  | Boolean b => b
  | Number x => negb (is_zero x || is_nan x)
  | Str s => negb (String.eqb s "")
  | Symbol _ => true
  end.

Definition truthy (p : property value) : bool :=
  match p with
  | Data p => ToBoolean p
  | Method _ => true
  end.

Definition ToString_primitive (p : primitive) : completion string :=
  match p with
  | Undefined => Return "undefined"
  | Null => Return "null"
  | Boolean b => Return (if b then "true" else "false")
  | Number x => Return (NumberToString.toString x)
  | Str s => Return s
  | Symbol _ => Throw (TypeError "Cannot convert a Symbol value to a string")
  end.

Definition ToNumber (p : primitive) : completion float :=
  match p with
  | Undefined => Return nan
  | Null => Return zero
  | Boolean b => Return (if b then one else zero)
  | Number x => Return x
  | Str s => Return (StringToNumber s)
  | Symbol _ => Throw (TypeError "Cannot convert a Symbol value to a number")
  end.

(** ToPrimitive: the [valueOf] of an object is the default one, which
    returns the object itself, so the conversion is the object's
    [toString] whatever the hint. *)
Definition ToPrimitive (v : value) : M primitive :=
  match v with
  | Prim p => ret p
  | Obj _ (Method body) =>
      r <- body ;;
      match r with
      | Prim p => ret p
      | Obj _ _ => throw (TypeError "Cannot convert object to primitive value")
      end
  | Obj _ (Data _) => throw (TypeError "Cannot convert object to primitive value")
  end.

Definition ToString (v : value) : M string :=
  p <- ToPrimitive v ;; lift (ToString_primitive p).

Definition ToNumeric (v : value) : M float :=
  p <- ToPrimitive v ;; lift (ToNumber p).

(** [v?.result] *)
Definition optional_result (v : value) : property value :=
  match v with
  | Obj result _ => result
  | Prim _ => Data Undefined
  end.

(** [v.result()] *)
Definition call_result (v : value) : M value :=
  match v with
  | Obj (Method body) _ => body
  | Obj (Data _) _ => throw (TypeError "result is not a function")
  | Prim Undefined | Prim Null => throw (TypeError "Cannot read properties")
  | Prim _ => throw (TypeError "result is not a function")
  end.

(** [v.toString()]; the primitives have the [toString] of their
    prototype. *)
Definition call_toString (v : value) : M value :=
  match v with
  | Obj _ (Method body) => body
  | Obj _ (Data _) => throw (TypeError "toString is not a function")
  | Prim Undefined | Prim Null => throw (TypeError "Cannot read properties")
  | Prim (Symbol d) => ret (Prim (Str ("Symbol(" ++ d ++ ")")))
  | Prim p => s <- lift (ToString_primitive p) ;; ret (Prim (Str s))
  end.

(** [a + b] *)
Definition js_add (a b : value) : M value :=
  lprim <- ToPrimitive a ;;
  rprim <- ToPrimitive b ;;
  match lprim, rprim with
  | Str _, _ | _, Str _ =>
      lstr <- lift (ToString_primitive lprim) ;;
      rstr <- lift (ToString_primitive rprim) ;;
      ret (Prim (Str (lstr ++ rstr)))
  | _, _ =>
      lnum <- lift (ToNumber lprim) ;;
      rnum <- lift (ToNumber rprim) ;;
      ret (Prim (Number (lnum + rnum)))
  end.

(** [a - b], [a * b], [a / b] *)
Definition js_numeric (op : float -> float -> float) (a b : value) : M value :=
  lnum <- ToNumeric a ;;
  rnum <- ToNumeric b ;;
  ret (Prim (Number (op lnum rnum))).

Definition js_sub : value -> value -> M value := js_numeric PrimFloat.sub.
Definition js_mul : value -> value -> M value := js_numeric PrimFloat.mul.
Definition js_div : value -> value -> M value := js_numeric PrimFloat.div.

(** [v === 0] *)
Definition strict_equals_zero (v : value) : bool :=
  match v with
  | Prim (Number x) => (x =? 0)%float
  | _ => false
  end.

(* --------------------------------------------------------------- *)
(** *** utils/number *)

(** [typeof value === "number" && Number.isFinite(value)] *)
Definition isNumber (v : value) : bool :=
  match v with
  | Prim (Number x) => is_finite x
  | _ => false
  end.

(* --------------------------------------------------------------- *)
(** *** modules/print *)

Definition printValue (v : value) : M string := ToString v.

Definition printExpression (left right : value) (operation : string) : M string :=
  l <- call_toString left ;;
  lstr <- ToString l ;;
  r <- call_toString right ;;
  rstr <- ToString r ;;
  ret ("(" ++ lstr ++ " " ++ operation ++ " " ++ rstr ++ ")").

(* --------------------------------------------------------------- *)
(** *** modules/validation *)

Definition invalid_literal (shown : string) : exn :=
  Error ("The value " ++ dquote ++ shown ++ dquote ++ " is not a numerical value!").

Definition missing_operand (operation : string) : exn :=
  Error ("The operation " ++ dquote ++ operation ++ dquote ++ " is missing an operand!").

Definition zero_divisor (shown : string) : exn :=
  Error ("The right-hand side operand " ++ dquote ++ shown ++ dquote
           ++ " for Divide must be non-zero!").

Definition validateValue (v : value) : M unit :=
  if negb (isNumber v) then
    shown <- ToString v ;;
    throw (invalid_literal shown)
  else ret tt.

Definition validateExpression (left right : value) (operation : string) : M unit :=
  if negb (truthy (optional_result left)) || negb (truthy (optional_result right)) then
    throw (missing_operand operation)
  else ret tt.

Definition validateDivide (left right : value) (operation : string) : M unit :=
  validateExpression left right operation ;;;
  r <- call_result right ;;
  if strict_equals_zero r then
    t <- call_toString right ;;
    shown <- ToString t ;;
    throw (zero_divisor shown)
  else ret tt.

(* --------------------------------------------------------------- *)
(** *** modules/arithmetic *)

(** The object literal [{ result: () => ..., toString: () => ... }]. *)
Definition node (result : M value) (toString : M string) : value :=
  Obj (Method result) (Method (s <- toString ;; ret (Prim (Str s)))).

Definition makeValue (validateValue : value -> M unit)
    (toString : value -> M string) (v : value) : M value :=
  validateValue v ;;;
  ret (node (ret v) (toString v)).

Definition makeAdd (validateExpression : value -> value -> string -> M unit)
    (toString : value -> value -> string -> M string) (left right : value) : M value :=
  let operation := "+" in
  validateExpression left right operation ;;;
  ret (node (l <- call_result left ;; r <- call_result right ;; js_add l r)
            (toString left right operation)).

Definition makeSubtract (validateExpression : value -> value -> string -> M unit)
    (toString : value -> value -> string -> M string) (left right : value) : M value :=
  let operation := "-" in
  validateExpression left right operation ;;;
  ret (node (l <- call_result left ;; r <- call_result right ;; js_sub l r)
            (toString left right operation)).

Definition makeMultiply (validateExpression : value -> value -> string -> M unit)
    (toString : value -> value -> string -> M string) (left right : value) : M value :=
  let operation := "x" in
  validateExpression left right operation ;;;
  ret (node (l <- call_result left ;; r <- call_result right ;; js_mul l r)
            (toString left right operation)).

Definition makeDivide (validateDivide : value -> value -> string -> M unit)
    (toString : value -> value -> string -> M string) (left right : value) : M value :=
  let operation := "÷" in
  validateDivide left right operation ;;;
  ret (node (l <- call_result left ;; r <- call_result right ;; js_div l r)
            (toString left right operation)).

(* --------------------------------------------------------------- *)
(** *** The public constructors and the tree of the composition root *)

Definition Value : value -> M value := makeValue validateValue printValue.
Definition Add : value -> value -> M value := makeAdd validateExpression printExpression.
Definition Subtract : value -> value -> M value :=
  makeSubtract validateExpression printExpression.
Definition Multiply : value -> value -> M value :=
  makeMultiply validateExpression printExpression.
Definition Divide : value -> value -> M value := makeDivide validateDivide printExpression.

Definition num (x : float) : value := Prim (Number x).

(** [Divide(Add(Value(7), Multiply(Subtract(Value(3), Value(2)), Value(5))), Value(6))],
    the arguments of a call evaluated from left to right. *)
Definition tree : M value :=
  v7 <- Value (num 7) ;;
  v3 <- Value (num 3) ;;
  v2 <- Value (num 2) ;;
  sub <- Subtract v3 v2 ;;
  v5 <- Value (num 5) ;;
  mul <- Multiply sub v5 ;;
  add <- Add v7 mul ;;
  v6 <- Value (num 6) ;;
  Divide add v6.

(* --------------------------------------------------------------- *)
(** *** Nodes built by the public constructors alone *)

(** [built n]: the value [n] was returned by a public constructor whose
    operands, if any, were themselves returned by public constructors. *)
Inductive built : value -> Prop :=
| built_Value v s n s' :
    Value v s = (Return n, s') -> built n
| built_Add l r s n s' :
    built l -> built r -> Add l r s = (Return n, s') -> built n
| built_Subtract l r s n s' :
    built l -> built r -> Subtract l r s = (Return n, s') -> built n
| built_Multiply l r s n s' :
    built l -> built r -> Multiply l r s = (Return n, s') -> built n
| built_Divide l r s n s' :
    built l -> built r -> Divide l r s = (Return n, s') -> built n.

(** [n.result()] returns the number [x], whatever the state, and leaves the
    state alone; likewise [n.toString()] and the string [t]. *)
Definition evaluates_to (n : value) (x : float) : Prop :=
  forall s, call_result n s = (Return (num x), s).

Definition renders_to (n : value) (t : string) : Prop :=
  forall s, call_toString n s = (Return (Prim (Str t)), s).

(** A value with a number and a string of its own: what its [result()] and
    its [toString()] return does not depend on the state, and the calls
    leave the state alone. *)
Definition deterministic (n : value) : Prop :=
  exists x t, evaluates_to n x /\ renders_to n t.

(** The template [`${v.toString()}`] of [printExpression] and
    [validateDivide]: the call, and the conversion of what it returns. *)
Definition rendering (v : value) : M string :=
  t <- call_toString v ;; ToString t.

(** The rendering of a binary node from those of its operands. *)
Definition infix (lstr operation rstr : string) : string :=
  "(" ++ lstr ++ " " ++ operation ++ " " ++ rstr ++ ")".

(** The second statement of [validateDivide], on its own: what is left to
    do once both operands have passed the probe of [validateExpression]. *)
Definition divisor_check (r : value) : M unit :=
  v <- call_result r ;;
  if strict_equals_zero v then
    t <- call_toString r ;;
    shown <- ToString t ;;
    throw (zero_divisor shown)
  else ret tt.

(** The operand passes the probe of [validateExpression]. *)
Definition has_result (v : value) : bool := truthy (optional_result v).

(* --------------------------------------------------------------- *)
(** *** Trees of constructor calls *)

(** The expressions a caller writes with the public constructors over
    number literals, as [tree.js] does. *)
Inductive expr : Type :=
| EValue (x : float)
| EAdd (l r : expr)
| ESubtract (l r : expr)
| EMultiply (l r : expr)
| EDivide (l r : expr).

(** Their evaluation by the language: the arguments of a call from left to
    right, then the call. *)
Fixpoint construct (e : expr) : M value :=
  match e with
  | EValue x => Value (num x)
  | EAdd l r => a <- construct l ;; b <- construct r ;; Add a b
  | ESubtract l r => a <- construct l ;; b <- construct r ;; Subtract a b
  | EMultiply l r => a <- construct l ;; b <- construct r ;; Multiply a b
  | EDivide l r => a <- construct l ;; b <- construct r ;; Divide a b
  end.

(** The number an expression stands for, in binary64 arithmetic. *)
Fixpoint eval (e : expr) : float :=
  match e with
  | EValue x => x
  | EAdd l r => (eval l + eval r)%float
  | ESubtract l r => (eval l - eval r)%float
  | EMultiply l r => (eval l * eval r)%float
  | EDivide l r => (eval l / eval r)%float
  end.

(** Its fully parenthesized text. *)
Fixpoint show (e : expr) : string :=
  match e with
  | EValue x => NumberToString.toString x
  | EAdd l r => infix (show l) "+" (show r)
  | ESubtract l r => infix (show l) "-" (show r)
  | EMultiply l r => infix (show l) "x" (show r)
  | EDivide l r => infix (show l) "÷" (show r)
  end.

(** The first call that fails when the expression is evaluated, with the
    error it throws: a literal that is not finite, or a divisor that
    evaluates to zero. *)
Fixpoint first_error (e : expr) : option exn :=
  match e with
  | EValue x =>
      if is_finite x then None
      else Some (invalid_literal (NumberToString.toString x))
  | EAdd l r | ESubtract l r | EMultiply l r =>
      match first_error l with
      | Some err => Some err
      | None => first_error r
      end
  | EDivide l r =>
      match first_error l with
      | Some err => Some err
      | None =>
          match first_error r with
          | Some err => Some err
          | None =>
              if (eval r =? 0)%float then Some (zero_divisor (show r)) else None
          end
      end
  end.

(** The node [n] stands for the expression [e]: it was built by the public
    constructors alone, evaluates to the number of [e] and renders as its
    text, in every state. *)
Definition denotes (e : expr) (n : value) : Prop :=
  built n /\ evaluates_to n (eval e) /\ renders_to n (show e).

(** [n] was returned by a binary constructor on the operands [l] and [r]. *)
Definition binary_node (l r n : value) : Prop :=
  exists s s',
    Add l r s = (Return n, s') \/ Subtract l r s = (Return n, s')
    \/ Multiply l r s = (Return n, s') \/ Divide l r s = (Return n, s').

(** [n] was returned by one of the five public constructors. *)
Definition returned (n : value) : Prop :=
  (exists v s s', Value v s = (Return n, s')) \/ (exists l r, binary_node l r n).

End Program.

Arguments Data {host V} p.
Arguments Method {host V} body.

(* ================================================================= *)
(** ** Hosts and host objects of the examples *)

(** [{ result: 1 }]: the property is there, but is not a function;
    [toString] is the one of [Object.prototype]. *)
Definition uncallable {host : Host} : value :=
  Obj (Data (Number 1)) (Method (ret (Prim (Str "[object Object]")))).

(** [Object.assign(Object.create(null), { result: () => 0 })]: an object
    that evaluates to zero and has no [toString] at all. *)
Definition unprintable_zero {host : Host} : value :=
  Obj (Method (ret (Prim (Number 0)))) (Data Undefined).

(** [{ result() { throw new Error("boom") }, toString: () => "boom" }] *)
Definition throwing {host : Host} : value :=
  Obj (Method (throw (Error "boom"))) (Method (ret (Prim (Str "boom")))).

(** A host without state. None of the examples converts a string to a
    number, so the [StringToNumber] of the example hosts is a stand-in. *)
Definition plain : Host := {| State := unit; StringToNumber := fun _ => nan |}.

(** A host whose state is one flag, and the object
    [{ result: () => (flag = !flag) ? 1 : 0, toString: () => "flag" }]. *)
Definition flagged : Host := {| State := bool; StringToNumber := fun _ => nan |}.

Definition toggling : @value flagged :=
  Obj (host := flagged)
    (Method (host := flagged)
       (fun flag : bool => (Return (Prim (Number (if flag then 0 else 1))), negb flag)))
    (Method (ret (Prim (Str "flag")))).

(** A host that keeps a log of the calls made to its objects, and an object
    that evaluates to [x], renders as [name] and logs both calls. *)
Definition logging : Host := {| State := list string; StringToNumber := fun _ => nan |}.

Definition probe (name : string) (x : float) : @value logging :=
  Obj (host := logging)
    (Method (host := logging)
       (fun log : list string => (Return (Prim (Number x)), (log ++ [(name ++ ".result")%string])%list)))
    (Method (host := logging)
       (fun log : list string => (Return (Prim (Str name)), (log ++ [(name ++ ".toString")%string])%list))).

(* ================================================================= *)
(** ** Running the constructors *)

Section Properties.

Context {host : Host}.

Lemma validateExpression_run (l r : value) (operation : string) (s : State) :
  validateExpression l r operation s =
    if has_result l && has_result r then (Return tt, s)
    else (Throw (missing_operand operation), s).
Proof.
  unfold validateExpression, has_result, throw, ret.
  destruct (truthy (optional_result l)), (truthy (optional_result r)); reflexivity.
Qed.

Lemma call_result_has_result (v r : value) (s s' : State) :
  call_result v s = (Return r, s') -> has_result v = true.
Proof.
  unfold has_result.
  destruct v as [p | [p | body] ts]; simpl; try reflexivity.
  - destruct p; discriminate.
  - discriminate.
Qed.

Lemma Value_run (v : value) (s : State) :
  Value v s =
    if isNumber v then (Return (node (ret v) (printValue v)), s)
    else match ToString v s with
         | (Return shown, s') => (Throw (invalid_literal shown), s')
         | (Throw e, s') => (Throw e, s')
         end.
Proof.
  unfold Value, makeValue, validateValue, bind, ret, throw.
  destruct (isNumber v); simpl; [reflexivity |].
  destruct (ToString v s) as [[shown | e] s']; reflexivity.
Qed.

Lemma isNumber_finite (v : value) :
  isNumber v = true -> exists x, v = num x /\ is_finite x = true.
Proof.
  destruct v as [[| | b | x | t | d] | rs ts]; simpl; try discriminate.
  intro H. exists x. split; [reflexivity | exact H].
Qed.

(** The three constructors that share [validateExpression] run alike. *)
Ltac run_binary l r :=
  unfold bind; rewrite validateExpression_run;
  destruct (has_result l && has_result r); reflexivity.

Lemma Add_run (l r : value) (s : State) :
  Add l r s =
    if has_result l && has_result r then
      (Return (node (a <- call_result l ;; b <- call_result r ;; js_add a b)
                    (printExpression l r "+")), s)
    else (Throw (missing_operand "+"), s).
Proof. unfold Add, makeAdd. run_binary l r. Qed.

Lemma Subtract_run (l r : value) (s : State) :
  Subtract l r s =
    if has_result l && has_result r then
      (Return (node (a <- call_result l ;; b <- call_result r ;; js_sub a b)
                    (printExpression l r "-")), s)
    else (Throw (missing_operand "-"), s).
Proof. unfold Subtract, makeSubtract. run_binary l r. Qed.

Lemma Multiply_run (l r : value) (s : State) :
  Multiply l r s =
    if has_result l && has_result r then
      (Return (node (a <- call_result l ;; b <- call_result r ;; js_mul a b)
                    (printExpression l r "x")), s)
    else (Throw (missing_operand "x"), s).
Proof. unfold Multiply, makeMultiply. run_binary l r. Qed.

Lemma Divide_run (l r : value) (s : State) :
  Divide l r s =
    if has_result l && has_result r then
      match divisor_check r s with
      | (Return _, s') =>
          (Return (node (a <- call_result l ;; b <- call_result r ;; js_div a b)
                        (printExpression l r "÷")), s')
      | (Throw e, s') => (Throw e, s')
      end
    else (Throw (missing_operand "÷"), s).
Proof.
  unfold Divide, makeDivide, validateDivide, bind at 1 2. rewrite validateExpression_run.
  destruct (has_result l && has_result r); [| reflexivity].
  fold (divisor_check r).
  destruct (divisor_check r s) as [[u | e] s']; reflexivity.
Qed.

Lemma divisor_check_nonzero (r v : value) (s s' : State) :
  call_result r s = (Return v, s') -> strict_equals_zero v = false ->
  divisor_check r s = (Return tt, s').
Proof.
  intros Hr Hv. unfold divisor_check, bind. rewrite Hr, Hv. reflexivity.
Qed.

Lemma divisor_check_zero (r v : value) (shown : string) (s s1 s2 : State) :
  call_result r s = (Return v, s1) -> strict_equals_zero v = true ->
  rendering r s1 = (Return shown, s2) ->
  divisor_check r s = (Throw (zero_divisor shown), s2).
Proof.
  intros Hr Hv Ht. unfold divisor_check, rendering, bind in *. rewrite Hr, Hv.
  destruct (call_toString r s1) as [[t | e] s1']; [| discriminate].
  rewrite Ht. reflexivity.
Qed.

(** The construction of a [Divide] node has called [right.result()], which
    returned something other than zero. *)
Lemma divisor_check_returns (r : value) (s s' : State) (u : unit) :
  divisor_check r s = (Return u, s') ->
  exists v, call_result r s = (Return v, s') /\ strict_equals_zero v = false.
Proof.
  unfold divisor_check, bind, ret, throw.
  destruct (call_result r s) as [[v | e] s1]; [| discriminate].
  destruct (strict_equals_zero v) eqn:Hz.
  - destruct (call_toString r s1) as [[t | e] s2]; [| discriminate].
    destruct (ToString t s2) as [[shown | e] s3]; discriminate.
  - intro H. inversion H. subst. exists v. split; [reflexivity | exact Hz].
Qed.

(** The state and the results of the two calls of a binary [result()]. *)
Lemma binary_result (op : value -> value -> M value) (l r : value) (a b : float)
    (s s1 s2 : State) :
  call_result l s = (Return (num a), s1) ->
  call_result r s1 = (Return (num b), s2) ->
  (x <- call_result l ;; y <- call_result r ;; op x y) s = op (num a) (num b) s2.
Proof.
  intros Hl Hr. unfold bind. rewrite Hl, Hr. reflexivity.
Qed.

Lemma binary_render (l r : value) (operation lstr rstr : string) (s s1 s2 : State) :
  rendering l s = (Return lstr, s1) ->
  rendering r s1 = (Return rstr, s2) ->
  printExpression l r operation s = (Return (infix lstr operation rstr), s2).
Proof.
  unfold rendering, printExpression, bind.
  destruct (call_toString l s) as [[tl | e] sl]; [| discriminate].
  destruct (ToString tl sl) as [[lstr' | e] sl']; [| discriminate].
  intro E. inversion E. subst.
  destruct (call_toString r s1) as [[tr | e] sr]; [| discriminate].
  destruct (ToString tr sr) as [[rstr' | e] sr']; [| discriminate].
  intro E'. inversion E'. subst. reflexivity.
Qed.

Lemma renders_to_rendering (v : value) (t : string) (s : State) :
  renders_to v t -> rendering v s = (Return t, s).
Proof.
  intro Hv. unfold rendering, bind. rewrite (Hv s). reflexivity.
Qed.

(* ================================================================= *)
(** ** Number::toString on some numbers *)

(** Integers, fractions, the two thresholds of the exponent notation, and
    the values that are not finite. [0x1.999999999999ap-4] is the binary64
    number nearest to one tenth. *)
Example toString_examples :
  NumberToString.toString 7 = "7"
  /\ NumberToString.toString (-12.5) = "-12.5"
  /\ NumberToString.toString 0x1.999999999999ap-4 = "0.1"
  /\ NumberToString.toString 0x1p-1074 = "5e-324"
  /\ NumberToString.toString 100000000000000000000 = "100000000000000000000"
  /\ NumberToString.toString 1000000000000000000000 = "1e+21"
  /\ NumberToString.toString 0x1.0c6f7a0b5ed8dp-20 = "0.000001"
  /\ NumberToString.toString 0x1.ad7f29abcaf48p-24 = "1e-7"
  /\ NumberToString.toString 9007199254740992 = "9007199254740992"
  /\ NumberToString.toString neg_zero = "0"
  /\ NumberToString.toString nan = "NaN"
  /\ NumberToString.toString neg_infinity = "-Infinity".
Proof. vm_compute. repeat split. Qed.

(* ================================================================= *)
(** ** Literals *)

(** C5. For every finite number [x], [Value(x)] returns a node, whose
    [result()] returns [x] itself and whose [toString()] returns the string
    form of [x], which is Number::toString of [x], the value of [String(x)]
    and of the template [`${x}`]; neither call touches the state. *)
Theorem C5_literal_evaluates_and_renders (x : float) (s : State) :
  is_finite x = true ->
  exists n,
    Value (num x) s = (Return n, s)
    /\ evaluates_to n x
    /\ renders_to n (NumberToString.toString x)
    /\ ToString (num x) s = (Return (NumberToString.toString x), s).
Proof.
  intro Hfin. rewrite Value_run. simpl. rewrite Hfin.
  eexists. split; [reflexivity |].
  repeat split.
Qed.

(* ================================================================= *)
(** ** The tree of the composition root *)

(** C8. The tree
    [Divide(Add(Value(7), Multiply(Subtract(Value(3), Value(2)), Value(5))), Value(6))]
    is constructed, renders as ((7 + ((3 - 2) x 5)) ÷ 6) and evaluates
    to 2. *)
Theorem C8_tree_renders_and_evaluates (s : State) :
  exists n,
    tree s = (Return n, s)
    /\ call_toString n s = (Return (Prim (Str "((7 + ((3 - 2) x 5)) ÷ 6)")), s)
    /\ call_result n s = (Return (num 2), s).
Proof.
  eexists. split; [vm_compute; reflexivity |].
  split; vm_compute; reflexivity.
Qed.

(* ================================================================= *)
(** ** Evaluation and rendering of binary nodes *)

(** C1. Let [l.result()] return [va] and then [r.result()] return [vb].
    Then [Add(l, r)], [Subtract(l, r)] and [Multiply(l, r)] return nodes
    whose [result()] returns [va + vb], [va - vb] and [va * vb], and so does
    [Divide(l, r)] with [va / vb] whenever the [r.result()] of its
    construction is not zero. On numbers, these four operators are the
    addition, subtraction, multiplication and division of binary64. *)
Theorem C1_binary_nodes_evaluate (l r va vb : value) (s s1 s2 : State) :
  call_result l s = (Return va, s1) ->
  call_result r s1 = (Return vb, s2) ->
  (forall s0, exists n,
      Add l r s0 = (Return n, s0)
      /\ call_result n s = js_add va vb s2)
  /\ (forall s0, exists n,
      Subtract l r s0 = (Return n, s0)
      /\ call_result n s = js_sub va vb s2)
  /\ (forall s0, exists n,
      Multiply l r s0 = (Return n, s0)
      /\ call_result n s = js_mul va vb s2)
  /\ (forall s0 v0 s0',
      call_result r s0 = (Return v0, s0') -> strict_equals_zero v0 = false ->
      exists n,
        Divide l r s0 = (Return n, s0')
        /\ call_result n s = js_div va vb s2)
  /\ (forall a b s',
      js_add (num a) (num b) s' = (Return (num (a + b)), s')
      /\ js_sub (num a) (num b) s' = (Return (num (a - b)), s')
      /\ js_mul (num a) (num b) s' = (Return (num (a * b)), s')
      /\ js_div (num a) (num b) s' = (Return (num (a / b)), s')).
Proof.
  intros Hl Hr.
  pose proof (call_result_has_result _ _ _ _ Hl) as HL.
  pose proof (call_result_has_result _ _ _ _ Hr) as HR.
  assert (Hcalls : forall op : value -> value -> M value,
             (x <- call_result l ;; y <- call_result r ;; op x y) s = op va vb s2).
  { intro op. unfold bind. rewrite Hl, Hr. reflexivity. }
  split; [| split; [| split; [| split]]].
  - intro s0. eexists. rewrite Add_run, HL, HR. split; [reflexivity | apply Hcalls].
  - intro s0. eexists. rewrite Subtract_run, HL, HR. split; [reflexivity | apply Hcalls].
  - intro s0. eexists. rewrite Multiply_run, HL, HR. split; [reflexivity | apply Hcalls].
  - intros s0 v0 s0' Hr0 Hv0. eexists.
    rewrite Divide_run, HL, HR. simpl.
    rewrite (divisor_check_nonzero _ _ _ _ Hr0 Hv0). split; [reflexivity | apply Hcalls].
  - intros a b s'. repeat split.
Qed.

(** C6. Let the template [`${l.toString()}`] give the string [lstr] and
    then [`${r.toString()}`] the string [rstr], as they do when the two
    calls return these strings. Then the [toString()] of a node returned by
    [Add(l, r)] returns the string made of an opening parenthesis, [lstr], a
    space, the sign [+], a space, [rstr] and a closing parenthesis; the
    other three constructors do the same with the signs [-], [x] and [÷]. *)
Theorem C6_binary_nodes_render (l r : value) (lstr rstr : string) (s s1 s2 : State) :
  rendering l s = (Return lstr, s1) ->
  rendering r s1 = (Return rstr, s2) ->
  (forall s0 n s0', Add l r s0 = (Return n, s0') ->
     call_toString n s
     = (Return (Prim (Str ("(" ++ lstr ++ " " ++ "+" ++ " " ++ rstr ++ ")"))), s2))
  /\ (forall s0 n s0', Subtract l r s0 = (Return n, s0') ->
     call_toString n s
     = (Return (Prim (Str ("(" ++ lstr ++ " " ++ "-" ++ " " ++ rstr ++ ")"))), s2))
  /\ (forall s0 n s0', Multiply l r s0 = (Return n, s0') ->
     call_toString n s
     = (Return (Prim (Str ("(" ++ lstr ++ " " ++ "x" ++ " " ++ rstr ++ ")"))), s2))
  /\ (forall s0 n s0', Divide l r s0 = (Return n, s0') ->
     call_toString n s
     = (Return (Prim (Str ("(" ++ lstr ++ " " ++ "÷" ++ " " ++ rstr ++ ")"))), s2))
  /\ (forall t s', call_toString l s = (Return (Prim (Str t)), s') ->
     rendering l s = (Return t, s')).
Proof.
  intros Hl Hr.
  split; [| split; [| split; [| split]]].
  - intros s0 n s0'. rewrite Add_run. destruct (has_result l && has_result r); [| discriminate].
    intro E. inversion E. subst. simpl. unfold bind at 1.
    rewrite (binary_render _ _ _ _ _ _ _ _ Hl Hr). reflexivity.
  - intros s0 n s0'. rewrite Subtract_run. destruct (has_result l && has_result r); [| discriminate].
    intro E. inversion E. subst. simpl. unfold bind at 1.
    rewrite (binary_render _ _ _ _ _ _ _ _ Hl Hr). reflexivity.
  - intros s0 n s0'. rewrite Multiply_run. destruct (has_result l && has_result r); [| discriminate].
    intro E. inversion E. subst. simpl. unfold bind at 1.
    rewrite (binary_render _ _ _ _ _ _ _ _ Hl Hr). reflexivity.
  - intros s0 n s0'. rewrite Divide_run. destruct (has_result l && has_result r); [| discriminate].
    destruct (divisor_check r s0) as [[u | e] s0'']; [| discriminate].
    intro E. inversion E. subst. simpl. unfold bind at 1.
    rewrite (binary_render _ _ _ _ _ _ _ _ Hl Hr). reflexivity.
  - intros t s' E. unfold rendering, bind. rewrite E. reflexivity.
Qed.

(* ================================================================= *)
(** ** Nodes built by the public constructors alone *)

Lemma Value_returns (v n : value) (s s' : State) :
  Value v s = (Return n, s') ->
  exists x, s' = s /\ evaluates_to n x /\ renders_to n (NumberToString.toString x).
Proof.
  rewrite Value_run. destruct (isNumber v) eqn:Hv.
  - destruct (isNumber_finite v Hv) as [x [-> _]].
    intro E. inversion E. subst. exists x. repeat split.
  - destruct (ToString v s) as [[shown | e] s'']; discriminate.
Qed.

Lemma evaluated_operands (op : value -> value -> M value) (l r : value) (a b : float)
    (s : State) :
  evaluates_to l a -> evaluates_to r b ->
  (x <- call_result l ;; y <- call_result r ;; op x y) s = op (num a) (num b) s.
Proof.
  intros Hl Hr. apply binary_result with (s1 := s); [apply Hl | apply Hr].
Qed.

Lemma rendered_operands (l r : value) (operation lstr rstr : string) :
  renders_to l lstr -> renders_to r rstr ->
  renders_to (node (ret (Prim Undefined)) (printExpression l r operation))
             (infix lstr operation rstr).
Proof.
  intros Hl Hr s. simpl. unfold bind at 1.
  rewrite (binary_render l r operation lstr rstr s s s
             (renders_to_rendering _ _ s Hl) (renders_to_rendering _ _ s Hr)).
  reflexivity.
Qed.

(** A node of a binary constructor over operands that have a number and a
    string has them too. *)
Ltac returns_binary run l r Hla Hrb Hl Hr :=
  rewrite run;
  destruct (has_result l && has_result r); [| discriminate];
  let E := fresh "E" in
  intro E; inversion E; subst; split; [reflexivity |]; split;
  [ let s0 := fresh "s" in
    intro s0; simpl; rewrite (evaluated_operands _ _ _ _ _ _ Hla Hrb); reflexivity
  | exact (rendered_operands l r _ _ _ Hl Hr) ].

Lemma Add_returns (l r n : value) (a b : float) (lstr rstr : string) (s s' : State) :
  evaluates_to l a -> evaluates_to r b -> renders_to l lstr -> renders_to r rstr ->
  Add l r s = (Return n, s') ->
  s' = s /\ evaluates_to n (a + b) /\ renders_to n (infix lstr "+" rstr).
Proof.
  intros Hla Hrb Hl Hr. returns_binary Add_run l r Hla Hrb Hl Hr.
Qed.

Lemma Subtract_returns (l r n : value) (a b : float) (lstr rstr : string) (s s' : State) :
  evaluates_to l a -> evaluates_to r b -> renders_to l lstr -> renders_to r rstr ->
  Subtract l r s = (Return n, s') ->
  s' = s /\ evaluates_to n (a - b) /\ renders_to n (infix lstr "-" rstr).
Proof.
  intros Hla Hrb Hl Hr. returns_binary Subtract_run l r Hla Hrb Hl Hr.
Qed.

Lemma Multiply_returns (l r n : value) (a b : float) (lstr rstr : string) (s s' : State) :
  evaluates_to l a -> evaluates_to r b -> renders_to l lstr -> renders_to r rstr ->
  Multiply l r s = (Return n, s') ->
  s' = s /\ evaluates_to n (a * b) /\ renders_to n (infix lstr "x" rstr).
Proof.
  intros Hla Hrb Hl Hr. returns_binary Multiply_run l r Hla Hrb Hl Hr.
Qed.

Lemma Divide_returns (l r n : value) (a b : float) (lstr rstr : string) (s s' : State) :
  evaluates_to l a -> evaluates_to r b -> renders_to l lstr -> renders_to r rstr ->
  Divide l r s = (Return n, s') ->
  s' = s /\ (b =? 0)%float = false
  /\ evaluates_to n (a / b) /\ renders_to n (infix lstr "÷" rstr).
Proof.
  intros Hla Hrb Hl Hr. rewrite Divide_run.
  destruct (has_result l && has_result r); [| discriminate].
  destruct (divisor_check r s) as [[u | e] s1] eqn:Hd; [| discriminate].
  destruct (divisor_check_returns _ _ _ _ Hd) as [v [Hv Hz]].
  rewrite (Hrb s) in Hv. inversion Hv. subst.
  intro E. inversion E. subst. split; [reflexivity |]. split; [exact Hz |]. split.
  - intro s0. simpl. rewrite (evaluated_operands _ _ _ _ _ _ Hla Hrb). reflexivity.
  - exact (rendered_operands l r "÷" lstr rstr Hl Hr).
Qed.

(** A node built by the public constructors alone has a number and a string:
    its [result()] and its [toString()] return them in every state, and
    leave the state as it is. *)
Lemma built_pure (n : value) :
  built n -> deterministic n.
Proof.
  unfold deterministic.
  induction 1 as
    [v s n s' HV
    | l r s n s' _ [a [lstr [Hla Hl]]] _ [b [rstr [Hrb Hr]]] HC
    | l r s n s' _ [a [lstr [Hla Hl]]] _ [b [rstr [Hrb Hr]]] HC
    | l r s n s' _ [a [lstr [Hla Hl]]] _ [b [rstr [Hrb Hr]]] HC
    | l r s n s' _ [a [lstr [Hla Hl]]] _ [b [rstr [Hrb Hr]]] HC].
  - destruct (Value_returns _ _ _ _ HV) as [x [_ [Hx Ht]]]. eauto.
  - destruct (Add_returns _ _ _ _ _ _ _ _ _ Hla Hrb Hl Hr HC) as [_ [Hx Ht]]. eauto.
  - destruct (Subtract_returns _ _ _ _ _ _ _ _ _ Hla Hrb Hl Hr HC) as [_ [Hx Ht]]. eauto.
  - destruct (Multiply_returns _ _ _ _ _ _ _ _ _ Hla Hrb Hl Hr HC) as [_ [Hx Ht]]. eauto.
  - destruct (Divide_returns _ _ _ _ _ _ _ _ _ Hla Hrb Hl Hr HC) as [_ [_ [Hx Ht]]]. eauto.
Qed.

(** The tree of the composition root is such a node. *)
Lemma tree_built (s : State) :
  exists n, tree s = (Return n, s) /\ built n.
Proof.
  epose proof (built_Value (num 7) s _ _ eq_refl) as B7.
  epose proof (built_Value (num 3) s _ _ eq_refl) as B3.
  epose proof (built_Value (num 2) s _ _ eq_refl) as B2.
  epose proof (built_Value (num 5) s _ _ eq_refl) as B5.
  epose proof (built_Value (num 6) s _ _ eq_refl) as B6.
  epose proof (built_Subtract _ _ s _ _ B3 B2 eq_refl) as Bsub.
  epose proof (built_Multiply _ _ s _ _ Bsub B5 eq_refl) as Bmul.
  epose proof (built_Add _ _ s _ _ B7 Bmul eq_refl) as Badd.
  epose proof (built_Divide _ _ s _ _ Badd B6 eq_refl) as Bdiv.
  eexists. split; [| exact Bdiv]. reflexivity.
Qed.

(** C4, as amended. A node built by the public constructors alone never
    raises: its [result()] returns a number and its [toString()] a string, in
    every state. The divisor of a [Divide] node over such nodes (over
    deterministic operands, more generally), which was not zero when the
    node was constructed, is the same number at every later evaluation, so
    the node evaluates to a quotient by a number other than zero. *)
Theorem C4_built_nodes_never_raise :
  (forall n, built n ->
     exists x t, forall s,
       call_result n s = (Return (num x), s)
       /\ call_toString n s = (Return (Prim (Str t)), s))
  /\ (forall l r, built l -> built r -> deterministic l /\ deterministic r)
  /\ (forall l r s n s', deterministic l -> deterministic r ->
     Divide l r s = (Return n, s') ->
     exists a b,
       evaluates_to l a /\ evaluates_to r b
       /\ (b =? 0)%float = false
       /\ evaluates_to n (a / b)).
Proof.
  split; [| split].
  - intros n Hn. destruct (built_pure n Hn) as [x [t [Hx Ht]]].
    exists x, t. intro s. split; [apply Hx | apply Ht].
  - intros l r Hl Hr. split; apply built_pure; assumption.
  - intros l r s n s' [a [lstr [Hla Hlt]]] [b [rstr [Hrb Hrt]]] HC.
    destruct (Divide_returns _ _ _ _ _ _ _ _ _ Hla Hrb Hlt Hrt HC) as [_ [Hz [Hx _]]].
    exists a, b. repeat split; assumption.
Qed.

(** C9, as amended. A node built by the public constructors alone is
    deterministic, and so is, more generally, a node that a binary
    constructor returns on deterministic operands; the construction of such
    a node leaves the state alone. On a deterministic node any two calls of
    [result()] return the same number and any two calls of [toString()] the
    same string, in whatever states they are made, and no call changes the
    state. *)
Theorem C9_built_nodes_are_deterministic :
  (forall n, built n -> deterministic n)
  /\ (forall l r s n s', deterministic l -> deterministic r ->
      Add l r s = (Return n, s') \/ Subtract l r s = (Return n, s')
      \/ Multiply l r s = (Return n, s') \/ Divide l r s = (Return n, s') ->
      deterministic n /\ s' = s)
  /\ (forall n, deterministic n ->
      (forall s1 s2 c1 c2 s1' s2',
         call_result n s1 = (c1, s1') -> call_result n s2 = (c2, s2') ->
         c1 = c2 /\ s1' = s1 /\ s2' = s2 /\ exists x, c1 = Return (num x))
      /\ (forall s1 s2 c1 c2 s1' s2',
         call_toString n s1 = (c1, s1') -> call_toString n s2 = (c2, s2') ->
         c1 = c2 /\ s1' = s1 /\ s2' = s2 /\ exists t, c1 = Return (Prim (Str t)))).
Proof.
  split; [exact built_pure |]. split.
  - intros l r s n s' [a [lstr [Hla Hl]]] [b [rstr [Hrb Hr]]] [HC | [HC | [HC | HC]]].
    + destruct (Add_returns _ _ _ _ _ _ _ _ _ Hla Hrb Hl Hr HC) as [Hs [Hx Ht]].
      split; [exists (a + b)%float; eauto | exact Hs].
    + destruct (Subtract_returns _ _ _ _ _ _ _ _ _ Hla Hrb Hl Hr HC) as [Hs [Hx Ht]].
      split; [exists (a - b)%float; eauto | exact Hs].
    + destruct (Multiply_returns _ _ _ _ _ _ _ _ _ Hla Hrb Hl Hr HC) as [Hs [Hx Ht]].
      split; [exists (a * b)%float; eauto | exact Hs].
    + destruct (Divide_returns _ _ _ _ _ _ _ _ _ Hla Hrb Hl Hr HC) as [Hs [_ [Hx Ht]]].
      split; [exists (a / b)%float; eauto | exact Hs].
  - intros n [x [t [Hx Ht]]].
    split; intros s1 s2 c1 c2 s1' s2'.
    + rewrite (Hx s1), (Hx s2). intros E1 E2. inversion E1. inversion E2. subst.
      repeat split. exists x. reflexivity.
    + rewrite (Ht s1), (Ht s2). intros E1 E2. inversion E1. inversion E2. subst.
      repeat split. exists t. reflexivity.
Qed.

(* ================================================================= *)
(** ** Failures of construction *)

(** C3, as amended. [Add], [Subtract] and [Multiply] fail, with the
    missing-operand error that names their sign, exactly when [left?.result]
    or [right?.result] is falsy, and return a node on every other input;
    [Divide] starts with the same probe. The probe reads the property
    [result] and nothing else: whether it can be called, and whether there is
    a [toString], is not looked at during construction: a primitive value
    has no [result], a property that is not a function counts when it is
    truthy, and a function counts always. *)
Theorem C3_missing_operand_iff_no_result (l r : value) (s : State) :
  (Add l r s = (Throw (missing_operand "+"), s) <-> has_result l && has_result r = false)
  /\ (Subtract l r s = (Throw (missing_operand "-"), s)
      <-> has_result l && has_result r = false)
  /\ (Multiply l r s = (Throw (missing_operand "x"), s)
      <-> has_result l && has_result r = false)
  /\ (has_result l && has_result r = false ->
      Divide l r s = (Throw (missing_operand "÷"), s))
  /\ (has_result l && has_result r = true ->
      (exists n, Add l r s = (Return n, s))
      /\ (exists n, Subtract l r s = (Return n, s))
      /\ (exists n, Multiply l r s = (Return n, s)))
  /\ (forall p, has_result (Prim p) = false)
  /\ (forall p ts, has_result (Obj (Data p) ts) = ToBoolean p)
  /\ (forall body ts, has_result (Obj (Method body) ts) = true).
Proof.
  rewrite Add_run, Subtract_run, Multiply_run, Divide_run.
  destruct (has_result l && has_result r).
  - repeat split; try discriminate; eauto.
  - repeat split; try discriminate; eauto.
Qed.

(** C2, as amended. Let [l] and [r] pass the validation of operands, let
    [r.result()] return [v], and, in case [v] is zero, let [r.toString()]
    return a value whose string is [shown]. Then [Divide(l, r)] fails with a
    zero-divisor error if and only if [v === 0], and the message of that
    error quotes [shown]; when [v] is not zero, a node is returned. *)
Theorem C2_zero_divisor (l r v : value) (shown : string) (s s1 s2 : State) :
  validateExpression l r "÷" s = (Return tt, s) ->
  call_result r s = (Return v, s1) ->
  (strict_equals_zero v = true ->
   rendering r s1 = (Return shown, s2)) ->
  ((exists t s', Divide l r s = (Throw (zero_divisor t), s'))
   <-> strict_equals_zero v = true)
  /\ (strict_equals_zero v = true ->
      Divide l r s
      = (Throw (Error ("The right-hand side operand " ++ dquote ++ shown ++ dquote
                         ++ " for Divide must be non-zero!")), s2))
  /\ (strict_equals_zero v = false -> exists n, Divide l r s = (Return n, s1)).
Proof.
  intros Hval Hr Hshown.
  rewrite validateExpression_run in Hval.
  rewrite Divide_run.
  destruct (has_result l && has_result r); [| discriminate].
  destruct (strict_equals_zero v) eqn:Hz.
  - rewrite (divisor_check_zero _ _ _ _ _ _ Hr Hz (Hshown eq_refl)).
    repeat split; try discriminate; eauto.
  - rewrite (divisor_check_nonzero _ _ _ _ Hr Hz).
    repeat split; try discriminate; eauto.
    intros [t [s' E]]. discriminate.
Qed.

(** [Value(v)] fails if and only if [v] is not a finite number, that is a
    number that is neither NaN nor an infinity. Whenever the template of
    the message finds a string for [v] (it does for every primitive value
    but a symbol), the failure is the invalid-literal error, and its
    message quotes that string. *)
Lemma Value_fails_unless_finite (v : value) (s : State) :
  ((exists e s', Value v s = (Throw e, s')) <-> isNumber v = false)
  /\ (isNumber v = true
      <-> exists x, v = num x /\ is_nan x = false /\ is_infinity x = false)
  /\ (forall shown s',
      isNumber v = false -> ToString v s = (Return shown, s') ->
      Value v s
      = (Throw (Error ("The value " ++ dquote ++ shown ++ dquote
                         ++ " is not a numerical value!")), s'))
  /\ (forall p, v = Prim p -> (forall d, p <> Symbol d) ->
      exists shown, ToString v s = (Return shown, s)).
Proof.
  rewrite Value_run. repeat split.
  - intros [e [s' E]]. destruct (isNumber v); [discriminate | reflexivity].
  - intros ->. destruct (ToString v s) as [[shown | e] s']; eauto.
  - intro Hv. destruct (isNumber_finite v Hv) as [x [-> Hfin]].
    exists x. unfold is_finite in Hfin.
    destruct (is_nan x), (is_infinity x); try discriminate. repeat split.
  - intros [x [-> [Hn Hi]]]. simpl. unfold is_finite. rewrite Hn, Hi. reflexivity.
  - intros shown s' -> ->. reflexivity.
  - intros p -> Hp. destruct p; try (eexists; reflexivity).
    exfalso. exact (Hp _ eq_refl).
Qed.

(** C7. The code at the input on which it misses the claim. A symbol is not
    a number, so [validateValue] goes on to throw the invalid-literal error;
    but the template of the message cannot convert a symbol to a string, and
    what [Value(Symbol(d))] throws is the [TypeError] of that conversion: no
    invalid-literal error is thrown, and the symbol is not named. On every
    other primitive value that is not a finite number, the same statement
    of [validateValue] throws the invalid-literal error that quotes the
    value. *)
Theorem C7_symbol_literal_throws_TypeError (d : string) (s : State) :
  isNumber (Prim (Symbol d)) = false
  /\ (exists m, Value (Prim (Symbol d)) s = (Throw (TypeError m), s))
  /\ (forall shown s', Value (Prim (Symbol d)) s <> (Throw (invalid_literal shown), s'))
  /\ (forall p, isNumber (Prim p) = false -> (forall d', p <> Symbol d') ->
      exists shown,
        ToString_primitive p = Return shown
        /\ Value (Prim p) s = (Throw (invalid_literal shown), s)).
Proof.
  split; [reflexivity |]. split; [| split].
  - eexists. reflexivity.
  - intros shown s'. rewrite Value_run. simpl. discriminate.
  - intros p Hp Hsym. rewrite Value_run, Hp.
    destruct p as [| | b | x | t | d']; try (eexists; split; reflexivity).
    exfalso. exact (Hsym d' eq_refl).
Qed.

(** C10. On operands that both have a truthy [result], the construction of
    [Add], [Subtract] and [Multiply] returns a node and leaves the state of
    the host as it was, whatever the methods of the operands do: none of
    them is called. The construction of [Divide] is the call of
    [right.result()], followed by that of [right.toString()] when the result
    is zero, and nothing else: its outcome and the state it leaves are those
    of these calls, whatever the methods of [left] do. *)
Theorem C10_construction_calls (l r : value) (s : State) :
  has_result l = true -> has_result r = true ->
  (exists n, Add l r s = (Return n, s))
  /\ (exists n, Subtract l r s = (Return n, s))
  /\ (exists n, Multiply l r s = (Return n, s))
  /\ (forall e s1, call_result r s = (Throw e, s1) -> Divide l r s = (Throw e, s1))
  /\ (forall v s1, call_result r s = (Return v, s1) -> strict_equals_zero v = false ->
      exists n, Divide l r s = (Return n, s1))
  /\ (forall v s1, call_result r s = (Return v, s1) -> strict_equals_zero v = true ->
      Divide l r s
      = match rendering r s1 with
        | (Return shown, s2) => (Throw (zero_divisor shown), s2)
        | (Throw e, s2) => (Throw e, s2)
        end).
Proof.
  intros Hl Hr.
  rewrite Add_run, Subtract_run, Multiply_run, Divide_run, Hl, Hr. simpl.
  repeat split; eauto.
  - intros e s1 E. unfold divisor_check, bind. rewrite E. reflexivity.
  - intros v s1 E Hz. rewrite (divisor_check_nonzero _ _ _ _ E Hz). eauto.
  - intros v s1 E Hz. unfold divisor_check, rendering, bind. rewrite E, Hz.
    destruct (call_toString r s1) as [[t | e] s2]; [| reflexivity].
    destruct (ToString t s2) as [[shown | e] s3]; reflexivity.
Qed.

End Properties.

(* ================================================================= *)
(** ** The theorems at work, and the inputs on which the amended claims
       part from the original ones *)

(** [Add(l, r)] of two logging objects calls nothing when it is constructed,
    and [l.result()] before [r.result()] when it is evaluated; [Divide(l, r)]
    has called [r.result()] once it is constructed. *)
Lemma C1_witness :
  (exists n,
      Add (probe "l" 6) (probe "r" 3) [] = (Return n, [])
      /\ call_result n [] = (Return (num 9), ["l.result"; "r.result"]))
  /\ (exists n,
      Divide (probe "l" 6) (probe "r" 3) [] = (Return n, ["r.result"])
      /\ call_result n [] = (Return (num 2), ["l.result"; "r.result"])).
Proof.
  pose proof (C1_binary_nodes_evaluate (host := logging)
                (probe "l" 6) (probe "r" 3) (num 6) (num 3)
                [] ["l.result"] ["l.result"; "r.result"]
                eq_refl eq_refl) as [HA [_ [_ [HD _]]]].
  split.
  - exact (HA []).
  - exact (HD [] (num 3) ["r.result"] eq_refl eq_refl).
Defined.

(** [Divide(Value(1), Add(Subtract(Value(7), Value(8)), Value(1)))] fails, and
    the message quotes the divisor as it renders. *)
Lemma C2_witness :
  exists one seven eight sub r,
    Value (host := plain) (num 1) tt = (Return one, tt)
    /\ Value (host := plain) (num 7) tt = (Return seven, tt)
    /\ Value (host := plain) (num 8) tt = (Return eight, tt)
    /\ Subtract (host := plain) seven eight tt = (Return sub, tt)
    /\ Add (host := plain) sub one tt = (Return r, tt)
    /\ Divide (host := plain) one r tt
       = (Throw (Error ("The right-hand side operand " ++ dquote ++ "((7 - 8) + 1)"
                          ++ dquote ++ " for Divide must be non-zero!")), tt).
Proof.
  do 5 eexists.
  repeat (split; [reflexivity |]).
  eapply (fun l r H1 H2 H3 =>
            proj1 (proj2 (C2_zero_divisor (host := plain) l r (num 0) "((7 - 8) + 1)"
                            tt tt tt H1 H2 H3)));
    reflexivity.
Defined.

(** The operand validated by [Divide] evaluates to zero and cannot be
    rendered: the construction fails, but not with the zero-divisor error. *)
Lemma C2_counterexample :
  exists one,
    Value (host := plain) (num 1) tt = (Return one, tt)
    /\ validateExpression (host := plain) one unprintable_zero "÷" tt = (Return tt, tt)
    /\ call_result (host := plain) unprintable_zero tt = (Return (num 0), tt)
    /\ strict_equals_zero (host := plain) (num 0) = true
    /\ (exists m, Divide (host := plain) one unprintable_zero tt = (Throw (TypeError m), tt))
    /\ (forall shown s',
          Divide (host := plain) one unprintable_zero tt
          <> (Throw (zero_divisor shown), s')).
Proof.
  eexists. split; [reflexivity |].
  repeat split.
  - eexists. reflexivity.
  - intros shown s'. discriminate.
Qed.

(** [Add("abc", Value(2))] and [Add(Value(2), "abc")] fail with the
    missing-operand error of [+]. *)
Lemma C3_witness :
  exists two,
    Value (host := plain) (num 2) tt = (Return two, tt)
    /\ Add (host := plain) (Prim (Str "abc")) two tt = (Throw (missing_operand "+"), tt)
    /\ Add (host := plain) two (Prim (Str "abc")) tt = (Throw (missing_operand "+"), tt).
Proof.
  eexists. split; [reflexivity |]. split.
  - apply (C3_missing_operand_iff_no_result (host := plain)). reflexivity.
  - apply (C3_missing_operand_iff_no_result (host := plain)). reflexivity.
Defined.

(** [Add({ result: 1 }, Value(2))] is constructed although its left operand
    cannot be evaluated, and fails when it is evaluated;
    [Multiply(o, Value(2))] is constructed although [o] has no [toString],
    and fails when it is rendered. *)
Lemma C3_counterexample :
  exists two n n',
    Value (host := plain) (num 2) tt = (Return two, tt)
    /\ Add (host := plain) uncallable two tt = (Return n, tt)
    /\ (exists m, call_result (host := plain) uncallable tt = (Throw (TypeError m), tt))
    /\ (exists m, call_result (host := plain) n tt = (Throw (TypeError m), tt))
    /\ Multiply (host := plain) unprintable_zero two tt = (Return n', tt)
    /\ (exists m, call_toString (host := plain) unprintable_zero tt = (Throw (TypeError m), tt))
    /\ (exists m, call_toString (host := plain) n' tt = (Throw (TypeError m), tt)).
Proof.
  do 3 eexists.
  repeat (split; [reflexivity |]).
  repeat split; eexists; reflexivity.
Qed.

(** The tree of the composition root never raises. *)
Lemma C4_witness :
  exists n x t,
    tree (host := plain) tt = (Return n, tt)
    /\ call_result (host := plain) n tt = (Return (num x), tt)
    /\ call_toString (host := plain) n tt = (Return (Prim (Str t)), tt).
Proof.
  destruct (tree_built (host := plain) tt) as [n [Hn B]].
  destruct (proj1 (C4_built_nodes_never_raise (host := plain)) n B) as [x [t Hxt]].
  exists n, x, t. split; [exact Hn |]. exact (Hxt tt).
Defined.

(** [Add(o, Value(2))], where [o.result()] throws, is returned by a public
    constructor on operands that passed the validation, and raises when it
    is evaluated. [Divide(Value(1), o)], where [o.result()] returns 1 and 0
    in turn, is constructed and then divides by zero. *)
Lemma C4_counterexample :
  (exists two n,
      Value (host := plain) (num 2) tt = (Return two, tt)
      /\ validateExpression (host := plain) throwing two "+" tt = (Return tt, tt)
      /\ Add (host := plain) throwing two tt = (Return n, tt)
      /\ call_result (host := plain) n tt = (Throw (Error "boom"), tt))
  /\ (exists one n,
      Value (host := flagged) (num 1) false = (Return one, false)
      /\ Divide (host := flagged) one toggling false = (Return n, true)
      /\ call_result (host := flagged) toggling true = (Return (num 0), false)
      /\ call_result (host := flagged) n true = (Return (num infinity), false)).
Proof.
  split.
  - do 2 eexists. repeat (split; [reflexivity |]). reflexivity.
  - do 2 eexists. repeat (split; [reflexivity |]). reflexivity.
Qed.

(** [Value(1)] evaluates to 1 and renders as 1. *)
Lemma C5_witness :
  exists n,
    Value (host := plain) (num 1) tt = (Return n, tt)
    /\ evaluates_to n 1
    /\ renders_to n "1"
    /\ ToString (host := plain) (num 1) tt = (Return "1", tt).
Proof.
  exact (C5_literal_evaluates_and_renders (host := plain) 1 tt eq_refl).
Defined.

(** [Add(Value(1), Value(2))] renders as (1 + 2). *)
Lemma C6_witness :
  exists one two n,
    Value (host := plain) (num 1) tt = (Return one, tt)
    /\ Value (host := plain) (num 2) tt = (Return two, tt)
    /\ Add (host := plain) one two tt = (Return n, tt)
    /\ call_toString (host := plain) n tt = (Return (Prim (Str "(1 + 2)")), tt).
Proof.
  do 3 eexists.
  do 2 (split; [reflexivity |]).
  lazymatch goal with
  | |- Add ?l ?r _ = _ /\ _ =>
      split;
      [ reflexivity
      | exact (proj1 (C6_binary_nodes_render (host := plain) l r "1" "2" tt tt tt
                        eq_refl eq_refl) tt _ tt eq_refl) ]
  end.
Defined.

(** [Value("abc")], [Value(NaN)] and [Value(Infinity)] fail, and the
    messages quote abc, NaN and Infinity. *)
Lemma Value_fails_unless_finite_examples :
  Value (host := plain) (Prim (Str "abc")) tt
  = (Throw (Error ("The value " ++ dquote ++ "abc" ++ dquote
                     ++ " is not a numerical value!")), tt)
  /\ Value (host := plain) (num nan) tt
     = (Throw (Error ("The value " ++ dquote ++ "NaN" ++ dquote
                        ++ " is not a numerical value!")), tt)
  /\ Value (host := plain) (num infinity) tt
     = (Throw (Error ("The value " ++ dquote ++ "Infinity" ++ dquote
                        ++ " is not a numerical value!")), tt).
Proof.
  split; [| split].
  - apply (Value_fails_unless_finite (host := plain)); reflexivity.
  - apply (Value_fails_unless_finite (host := plain)); reflexivity.
  - apply (Value_fails_unless_finite (host := plain)); reflexivity.
Defined.


(** Two evaluations of the tree of the composition root agree. *)
Lemma C9_witness :
  exists n,
    tree (host := flagged) false = (Return n, false)
    /\ call_result (host := flagged) n false = (Return (num 2), false)
    /\ call_result (host := flagged) n true = (Return (num 2), true).
Proof.
  destruct (tree_built (host := flagged) false) as [n [Hn B]].
  exists n. split; [exact Hn |].
  assert (E1 : call_result (host := flagged) n false = (Return (num 2), false)).
  { vm_compute in Hn. inversion Hn. reflexivity. }
  split; [exact E1 |].
  destruct (call_result (host := flagged) n true) as [c s'] eqn:E2.
  destruct (C9_built_nodes_are_deterministic (host := flagged)) as [HB [_ HD]].
  destruct (proj1 (HD n (HB n B)) false true _ _ _ _ E1 E2) as [Hc [_ [Hs _]]].
  rewrite <- Hc, Hs. reflexivity.
Defined.

(** [Add(o, Value(1))], where [o.result()] returns 1 and 0 in turn, is
    constructed; its first evaluation returns 2 and its second one 1, and
    each of them changes the flag. *)
Lemma C9_counterexample :
  exists one n,
    Value (host := flagged) (num 1) false = (Return one, false)
    /\ Add (host := flagged) toggling one false = (Return n, false)
    /\ call_result (host := flagged) n false = (Return (num 2), true)
    /\ call_result (host := flagged) n true = (Return (num 1), false).
Proof.
  do 2 eexists. repeat (split; [reflexivity |]). reflexivity.
Qed.

(** The constructors on an operand [l] whose [result()] throws and on a
    logging operand [r]: [Add(l, r)] logs nothing; [Divide(l, r)] logs the
    call of [r.result()], and that of [r.toString()] when [r] is zero. *)
Lemma C10_witness :
  (exists n, Add (host := logging) throwing (probe "r" 2) [] = (Return n, []))
  /\ (exists e s', call_result (host := logging) throwing [] = (Throw e, s'))
  /\ (exists n, Divide (host := logging) throwing (probe "r" 2) [] = (Return n, ["r.result"]))
  /\ Divide (host := logging) throwing (probe "r" 0) []
     = (Throw (zero_divisor "r"), ["r.result"; "r.toString"]).
Proof.
  pose proof (C10_construction_calls (host := logging) throwing (probe "r" 2) []
                eq_refl eq_refl) as [HA [_ [_ [_ [HD _]]]]].
  pose proof (C10_construction_calls (host := logging) throwing (probe "r" 0) []
                eq_refl eq_refl) as [_ [_ [_ [_ [_ HZ]]]]].
  split; [exact HA |].
  split; [do 2 eexists; reflexivity |].
  split; [exact (HD (num 2) ["r.result"] eq_refl eq_refl) |].
  exact (HZ (num 0) ["r.result"] eq_refl eq_refl).
Defined.

(* ================================================================= *)
(** ** Further properties of the constructors *)

Section Compositions.

Context {host : Host}.

Lemma evaluates_to_has_result (n : value) (x : float) :
  evaluates_to n x -> forall s : State, has_result n = true.
Proof.
  intros Hn s. exact (call_result_has_result n (num x) s s (Hn s)).
Qed.

(** What a binary constructor returns: the object literal over its two
    operands, which both had a truthy [result]. *)
Lemma binary_node_shape (l r n : value) :
  binary_node l r n ->
  has_result l = true /\ has_result r = true
  /\ exists op operation,
       n = node (a <- call_result l ;; b <- call_result r ;; op a b)
                (printExpression l r operation).
Proof.
  intros [s [s' [H | [H | [H | H]]]]];
    [ rewrite Add_run in H | rewrite Subtract_run in H
    | rewrite Multiply_run in H | rewrite Divide_run in H ];
    destruct (has_result l) eqn:Hl; destruct (has_result r) eqn:Hr;
    simpl in H; try discriminate.
  4: destruct (divisor_check r s) as [[u | e] s1]; [| discriminate].
  all: inversion H; subst; repeat split; eauto.
Qed.

Lemma bind_Return {A B} (m : M A) (k : A -> M B) (a : A) (s s' : State) :
  m s = (Return a, s') -> bind m k s = k a s'.
Proof. intro E. unfold bind. rewrite E. reflexivity. Qed.

Lemma bind_Throw {A B} (m : M A) (k : A -> M B) (e : exn) (s s' : State) :
  m s = (Throw e, s') -> bind m k s = (Throw e, s').
Proof. intro E. unfold bind. rewrite E. reflexivity. Qed.

(** The statement of the characterisation, for the induction. *)
Definition characterised (e : expr) : Prop :=
  forall s,
    (first_error e = None -> exists n, construct e s = (Return n, s) /\ denotes e n)
    /\ (forall err, first_error e = Some err ->
        construct e s = (Throw err, s)
        /\ exists shown, err = invalid_literal shown \/ err = zero_divisor shown).

(** The arguments of a call of a binary constructor: the left one is
    evaluated first, and the first failure ends the evaluation. *)
Lemma construct_operands (l r : expr) (k : value -> value -> M value) (s : State) :
  characterised l -> characterised r ->
  match first_error l, first_error r with
  | Some err, _ | None, Some err =>
      (a <- construct l ;; b <- construct r ;; k a b) s = (Throw err, s)
      /\ exists shown, err = invalid_literal shown \/ err = zero_divisor shown
  | None, None =>
      exists a b,
        denotes l a /\ denotes r b
        /\ (a <- construct l ;; b <- construct r ;; k a b) s = k a b s
  end.
Proof.
  intros Cl Cr. destruct (Cl s) as [Hl Hl']. destruct (Cr s) as [Hr Hr'].
  destruct (first_error l) as [el |].
  - destruct (Hl' el eq_refl) as [E Hk]. split; [| exact Hk].
    apply bind_Throw. exact E.
  - destruct (Hl eq_refl) as [a [Ea Da]]. rewrite (bind_Return _ _ _ _ _ Ea).
    destruct (first_error r) as [er |].
    + destruct (Hr' er eq_refl) as [E Hk]. split; [| exact Hk].
      apply bind_Throw. exact E.
    + destruct (Hr eq_refl) as [b [Eb Db]]. rewrite (bind_Return _ _ _ _ _ Eb).
      exists a, b. split; [exact Da | split; [exact Db | reflexivity]].
Qed.

Lemma denotes_has_result (e : expr) (n : value) (s : State) :
  denotes e n -> has_result n = true.
Proof.
  intros [_ [Hn _]]. exact (evaluates_to_has_result n _ Hn s).
Qed.

Lemma Add_denotes (l r : expr) (a b : value) (s : State) :
  denotes l a -> denotes r b ->
  exists n, Add a b s = (Return n, s) /\ denotes (EAdd l r) n.
Proof.
  intros Da Db. pose proof Da as [Ba [Ha Hat]]. pose proof Db as [Bb [Hb Hbt]].
  assert (HC : exists n, Add a b s = (Return n, s)).
  { rewrite Add_run, (denotes_has_result _ _ s Da), (denotes_has_result _ _ s Db).
    simpl. eauto. }
  destruct HC as [n HC]. exists n. split; [exact HC |].
  destruct (Add_returns _ _ _ _ _ _ _ _ _ Ha Hb Hat Hbt HC) as [_ [Hx Ht]].
  split; [exact (built_Add a b s n s Ba Bb HC) | split; assumption].
Qed.

Lemma Subtract_denotes (l r : expr) (a b : value) (s : State) :
  denotes l a -> denotes r b ->
  exists n, Subtract a b s = (Return n, s) /\ denotes (ESubtract l r) n.
Proof.
  intros Da Db. pose proof Da as [Ba [Ha Hat]]. pose proof Db as [Bb [Hb Hbt]].
  assert (HC : exists n, Subtract a b s = (Return n, s)).
  { rewrite Subtract_run, (denotes_has_result _ _ s Da), (denotes_has_result _ _ s Db).
    simpl. eauto. }
  destruct HC as [n HC]. exists n. split; [exact HC |].
  destruct (Subtract_returns _ _ _ _ _ _ _ _ _ Ha Hb Hat Hbt HC) as [_ [Hx Ht]].
  split; [exact (built_Subtract a b s n s Ba Bb HC) | split; assumption].
Qed.

Lemma Multiply_denotes (l r : expr) (a b : value) (s : State) :
  denotes l a -> denotes r b ->
  exists n, Multiply a b s = (Return n, s) /\ denotes (EMultiply l r) n.
Proof.
  intros Da Db. pose proof Da as [Ba [Ha Hat]]. pose proof Db as [Bb [Hb Hbt]].
  assert (HC : exists n, Multiply a b s = (Return n, s)).
  { rewrite Multiply_run, (denotes_has_result _ _ s Da), (denotes_has_result _ _ s Db).
    simpl. eauto. }
  destruct HC as [n HC]. exists n. split; [exact HC |].
  destruct (Multiply_returns _ _ _ _ _ _ _ _ _ Ha Hb Hat Hbt HC) as [_ [Hx Ht]].
  split; [exact (built_Multiply a b s n s Ba Bb HC) | split; assumption].
Qed.

(** [Divide] on operands that stand for expressions: the divisor decides. *)
Lemma Divide_denotes (l r : expr) (a b : value) (s : State) :
  denotes l a -> denotes r b ->
  if (eval r =? 0)%float then Divide a b s = (Throw (zero_divisor (show r)), s)
  else exists n, Divide a b s = (Return n, s) /\ denotes (EDivide l r) n.
Proof.
  intros Da Db. pose proof Da as [Ba [Ha Hat]]. pose proof Db as [Bb [Hb Hbt]].
  destruct (eval r =? 0)%float eqn:Hz.
  - rewrite Divide_run, (denotes_has_result _ _ s Da), (denotes_has_result _ _ s Db).
    simpl.
    rewrite (divisor_check_zero b (num (eval r)) (show r) s s s (Hb s) Hz
               (renders_to_rendering b _ s Hbt)).
    reflexivity.
  - assert (HC : exists n, Divide a b s = (Return n, s)).
    { rewrite Divide_run, (denotes_has_result _ _ s Da), (denotes_has_result _ _ s Db).
      simpl. rewrite (divisor_check_nonzero b (num (eval r)) s s (Hb s) Hz). eauto. }
    destruct HC as [n HC]. exists n. split; [exact HC |].
    destruct (Divide_returns _ _ _ _ _ _ _ _ _ Ha Hb Hat Hbt HC) as [_ [_ [Hx Ht]]].
    split; [exact (built_Divide a b s n s Ba Bb HC) | split; assumption].
Qed.

(** One step of the induction, for the three constructors that cannot fail
    on operands that stand for expressions. *)
Ltac characterise_with k step l r IHl IHr s :=
  pose proof (construct_operands l r k s IHl IHr) as H;
  cbn [construct first_error] in *;
  destruct (first_error l) as [el |]; [| destruct (first_error r) as [er |]];
  [ destruct H as [E Hk]; split; [discriminate |];
    intros err Eerr; inversion Eerr; subst; split; [exact E | exact Hk]
  | destruct H as [E Hk]; split; [discriminate |];
    intros err Eerr; inversion Eerr; subst; split; [exact E | exact Hk]
  | destruct H as [a [b [Da [Db E]]]]; split; [intros _ | discriminate];
    rewrite E; exact (step l r a b s Da Db) ].

(** X1. An expression of constructor calls over number literals is
    evaluated without error exactly when [first_error] finds none: the node
    it returns then evaluates to [eval e] and renders as [show e], in every
    state. Otherwise the evaluation throws the error that [first_error]
    computes: the invalid-literal error of the first literal that is not
    finite, or the zero-divisor error of the first divisor that evaluates
    to zero, and never a missing-operand error. The state is left as it
    was in both cases. *)
Theorem X1_construct_characterised (e : expr) (s : State) :
  (first_error e = None ->
   exists n,
     construct e s = (Return n, s)
     /\ built n /\ evaluates_to n (eval e) /\ renders_to n (show e))
  /\ (forall err, first_error e = Some err ->
      construct e s = (Throw err, s)
      /\ exists shown, err = invalid_literal shown \/ err = zero_divisor shown).
Proof.
  revert s. change (characterised e).
  induction e as [x | l IHl r IHr | l IHl r IHr | l IHl r IHr | l IHl r IHr];
    intro s.
  - (* a literal *)
    cbn [construct first_error eval show]. rewrite Value_run. simpl.
    destruct (is_finite x) eqn:Hx; split; try discriminate.
    + intros _. eexists. split; [reflexivity |]. repeat split.
      apply (built_Value (num x) s _ s). rewrite Value_run. simpl. rewrite Hx.
      reflexivity.
    + intros err E. inversion E. subst. split; [reflexivity | eauto].
  - characterise_with Add Add_denotes l r IHl IHr s.
  - characterise_with Subtract Subtract_denotes l r IHl IHr s.
  - characterise_with Multiply Multiply_denotes l r IHl IHr s.
  - (* Divide *)
    pose proof (construct_operands l r Divide s IHl IHr) as H.
    cbn [construct first_error] in *.
    destruct (first_error l) as [el |]; [| destruct (first_error r) as [er |]].
    + destruct H as [E Hk]. split; [discriminate |].
      intros err Eerr. inversion Eerr. subst. split; [exact E | exact Hk].
    + destruct H as [E Hk]. split; [discriminate |].
      intros err Eerr. inversion Eerr. subst. split; [exact E | exact Hk].
    + destruct H as [a [b [Da [Db E]]]]. rewrite E.
      pose proof (Divide_denotes l r a b s Da Db) as HD.
      destruct (eval r =? 0)%float.
      * split; [discriminate |].
        intros err Eerr. inversion Eerr. subst. split; [exact HD | eauto].
      * split; [intros _; exact HD | discriminate].
Qed.

(** X2. Conversely, every node built by the public constructors alone
    stands for an expression over finite literals in which no divisor
    evaluates to zero: it evaluates to the number of that expression and
    renders as its fully parenthesized text. *)
Theorem X2_built_nodes_denote_expressions (n : value) :
  built n ->
  exists e,
    first_error e = None /\ evaluates_to n (eval e) /\ renders_to n (show e).
Proof.
  induction 1 as
    [v s n s' HV
    | l r s n s' _ [el [Fl [Hla Hl]]] _ [er [Fr [Hrb Hr]]] HC
    | l r s n s' _ [el [Fl [Hla Hl]]] _ [er [Fr [Hrb Hr]]] HC
    | l r s n s' _ [el [Fl [Hla Hl]]] _ [er [Fr [Hrb Hr]]] HC
    | l r s n s' _ [el [Fl [Hla Hl]]] _ [er [Fr [Hrb Hr]]] HC].
  - rewrite Value_run in HV. destruct (isNumber v) eqn:Hv.
    + destruct (isNumber_finite v Hv) as [x [-> Hx]]. inversion HV. subst.
      exists (EValue x). cbn [first_error eval show]. rewrite Hx. repeat split.
    + destruct (ToString v s) as [[shown | e] s'']; discriminate.
  - destruct (Add_returns _ _ _ _ _ _ _ _ _ Hla Hrb Hl Hr HC) as [_ [Hx Ht]].
    exists (EAdd el er). cbn [first_error eval show]. rewrite Fl, Fr. auto.
  - destruct (Subtract_returns _ _ _ _ _ _ _ _ _ Hla Hrb Hl Hr HC) as [_ [Hx Ht]].
    exists (ESubtract el er). cbn [first_error eval show]. rewrite Fl, Fr. auto.
  - destruct (Multiply_returns _ _ _ _ _ _ _ _ _ Hla Hrb Hl Hr HC) as [_ [Hx Ht]].
    exists (EMultiply el er). cbn [first_error eval show]. rewrite Fl, Fr. auto.
  - destruct (Divide_returns _ _ _ _ _ _ _ _ _ Hla Hrb Hl Hr HC) as [_ [Hz [Hx Ht]]].
    exists (EDivide el er). cbn [first_error eval show]. rewrite Fl, Fr, Hz. auto.
Qed.

(** X3. The evaluation of a binary node stops at the first operand that
    throws: when [left.result()] throws, the node throws the same error and
    [right.result()] is not called; when [left.result()] returns and
    [right.result()] throws, the node throws that error. *)
Theorem X3_evaluation_stops_at_first_throw (l r n : value) (e : exn) (s s1 : State) :
  binary_node l r n ->
  (call_result l s = (Throw e, s1) -> call_result n s = (Throw e, s1))
  /\ (forall va s0,
        call_result l s = (Return va, s0) -> call_result r s0 = (Throw e, s1) ->
        call_result n s = (Throw e, s1)).
Proof.
  intro Hn. destruct (binary_node_shape l r n Hn) as [_ [_ [op [operation ->]]]].
  split.
  - intro El. simpl. apply bind_Throw. exact El.
  - intros va s0 El Er. simpl. rewrite (bind_Return _ _ _ _ _ El).
    apply bind_Throw. exact Er.
Qed.

(** X4. The rendering of a binary node stops at the first operand that
    cannot be rendered: when the template of [left.toString()] throws, the
    node throws the same error and [right.toString()] is not called; when
    the left operand is rendered and the right one throws, the node throws
    that error. *)
Theorem X4_rendering_stops_at_first_throw (l r n : value) (e : exn) (s s1 : State) :
  binary_node l r n ->
  (rendering l s = (Throw e, s1) -> call_toString n s = (Throw e, s1))
  /\ (forall lstr s0,
        rendering l s = (Return lstr, s0) -> rendering r s0 = (Throw e, s1) ->
        call_toString n s = (Throw e, s1)).
Proof.
  intro Hn. destruct (binary_node_shape l r n Hn) as [_ [_ [op [operation ->]]]].
  unfold rendering. split.
  - intro El. simpl. apply bind_Throw. unfold printExpression, bind in *.
    destruct (call_toString l s) as [[tl | el] sl].
    + destruct (ToString tl sl) as [[lstr | el] sl']; [discriminate | exact El].
    + exact El.
  - intros lstr s0 El Er. simpl. apply bind_Throw. unfold printExpression, bind in *.
    destruct (call_toString l s) as [[tl | el] sl]; [| discriminate].
    destruct (ToString tl sl) as [[lstr' | el] sl']; [| discriminate].
    inversion El. subst.
    destruct (call_toString r s0) as [[tr | er] sr].
    + destruct (ToString tr sr) as [[rstr | er] sr']; [discriminate | exact Er].
    + exact Er.
Qed.

Lemma returned_has_result (n : value) :
  returned n -> has_result n = true.
Proof.
  intros [[v [s [s' HV]]] | [l [r Hn]]].
  - rewrite Value_run in HV. destruct (isNumber v).
    + inversion HV. reflexivity.
    + destruct (ToString v s) as [[shown | e] s'']; discriminate.
  - destruct (binary_node_shape l r n Hn) as [_ [_ [op [operation ->]]]]. reflexivity.
Qed.

(** X5. What the five public constructors return is always accepted as an
    operand: on two returned nodes, [Add], [Subtract] and [Multiply] return
    a node and leave the state alone, and [Divide] fails only if its
    divisor check does, never for a missing operand of its own. This holds
    whatever the nodes were themselves constructed on. *)
Theorem X5_returned_nodes_are_operands (a b : value) (s : State) :
  returned a -> returned b ->
  (exists n, Add a b s = (Return n, s))
  /\ (exists n, Subtract a b s = (Return n, s))
  /\ (exists n, Multiply a b s = (Return n, s))
  /\ (forall e s', Divide a b s = (Throw e, s') <-> divisor_check b s = (Throw e, s'))
  /\ (forall u s', divisor_check b s = (Return u, s') ->
      exists n, Divide a b s = (Return n, s')).
Proof.
  intros Ha Hb.
  rewrite Add_run, Subtract_run, Multiply_run, Divide_run,
    (returned_has_result a Ha), (returned_has_result b Hb). simpl.
  split; [eauto | split; [eauto | split; [eauto | split]]].
  - intros e s'. destruct (divisor_check b s) as [[u | e'] s''].
    + split; discriminate.
    + split; intro E; inversion E; reflexivity.
  - intros u s' ->. eauto.
Qed.

(** X6. [Add] does not ask for numbers: when one of the two operands
    evaluates to a string, and the other one to a primitive value that has
    a string form, the node evaluates to the concatenation of the two
    strings. *)
Theorem X6_add_concatenates_strings (l r n : value) (pa pb : primitive)
    (sa sb : string) (s0 s0' s s1 s2 : State) :
  Add l r s0 = (Return n, s0') ->
  call_result l s = (Return (Prim pa), s1) ->
  call_result r s1 = (Return (Prim pb), s2) ->
  (exists t, pa = Str t) \/ (exists t, pb = Str t) ->
  ToString_primitive pa = Return sa ->
  ToString_primitive pb = Return sb ->
  call_result n s = (Return (Prim (Str (sa ++ sb))), s2).
Proof.
  intros HC El Er Hstr Ea Eb.
  rewrite Add_run in HC. destruct (has_result l && has_result r); [| discriminate].
  inversion HC. subst. simpl.
  rewrite (bind_Return _ _ _ _ _ El), (bind_Return _ _ _ _ _ Er).
  unfold js_add, ToPrimitive, bind, ret, lift.
  destruct Hstr as [[t ->] | [t ->]].
  - simpl in Ea. inversion Ea. subst. rewrite Eb. reflexivity.
  - simpl in Eb. inversion Eb. subst.
    destruct pa; simpl in Ea; try discriminate; inversion Ea; subst; reflexivity.
Qed.

(** X7. A node is not a literal: [Value(n)] on a value [n] that has a
    truthy [result] and renders as [t] fails with the invalid-literal error
    whose message quotes [t], and leaves the state alone. *)
Theorem X7_literal_of_a_node_fails (n : value) (t : string) (s : State) :
  has_result n = true -> renders_to n t ->
  Value n s = (Throw (invalid_literal t), s).
Proof.
  intros Hn Ht. rewrite Value_run.
  destruct n as [p | rs [p | body]].
  - discriminate.
  - specialize (Ht s). discriminate.
  - simpl. specialize (Ht s). simpl in Ht.
    unfold ToString, ToPrimitive, bind, lift, ret. rewrite Ht. reflexivity.
Qed.

Lemma length_append (a b : string) :
  String.length (a ++ b) = String.length a + String.length b.
Proof.
  induction a as [| x a IH]; simpl; [reflexivity | rewrite IH; reflexivity].
Qed.

Lemma append_cancel_r (a b c : string) :
  (a ++ c)%string = (b ++ c)%string -> a = b.
Proof.
  revert b. induction a as [| x a IH]; intros [| y b] E; simpl in E.
  - reflexivity.
  - exfalso. apply (f_equal String.length) in E. simpl in E.
    rewrite length_append in E. lia.
  - exfalso. apply (f_equal String.length) in E. simpl in E.
    rewrite length_append in E. lia.
  - inversion E. subst. f_equal. apply IH. assumption.
Qed.

(** X8. The three errors of the validation are told apart by their
    messages, and a message tells the text it quotes: the messages of two
    different kinds are never equal, and two messages of one kind are equal
    only if they quote the same text. *)
Theorem X8_messages_identify_errors (a b : string) :
  invalid_literal a <> missing_operand b
  /\ invalid_literal a <> zero_divisor b
  /\ missing_operand a <> zero_divisor b
  /\ (invalid_literal a = invalid_literal b -> a = b)
  /\ (missing_operand a = missing_operand b -> a = b)
  /\ (zero_divisor a = zero_divisor b -> a = b).
Proof.
  unfold invalid_literal, missing_operand, zero_divisor. simpl.
  repeat split; try discriminate; intro E; inversion E as [E'];
    exact (append_cancel_r _ _ _ E').
Qed.

(** X9. [Divide] does not keep the divisor it has checked: the node calls
    [right.result()] again at every evaluation, after [left.result()], and
    divides by what that call returns. *)
Theorem X9_divisor_is_evaluated_again (l r v0 va vb : value) (s s0 s1 s2 : State) :
  call_result r s = (Return v0, s0) -> strict_equals_zero v0 = false ->
  call_result l s0 = (Return va, s1) ->
  call_result r s1 = (Return vb, s2) ->
  (n <- Divide l r ;; call_result n) s = js_div va vb s2.
Proof.
  intros Er0 Hz El Er.
  assert (HC : Divide l r s
               = (Return (node (a <- call_result l ;; b <- call_result r ;; js_div a b)
                               (printExpression l r "÷")), s0)).
  { rewrite Divide_run, (call_result_has_result _ _ _ _ El),
      (call_result_has_result _ _ _ _ Er). simpl.
    rewrite (divisor_check_nonzero _ _ _ _ Er0 Hz). reflexivity. }
  rewrite (bind_Return _ _ _ _ _ HC). simpl.
  rewrite (bind_Return _ _ _ _ _ El), (bind_Return _ _ _ _ _ Er). reflexivity.
Qed.

(** X10. Rendering and evaluation do not mix: what the [toString()] of a
    binary node does depends on the [toString] of its operands and not on
    their [result], and what its [result()] does depends on their [result]
    and not on their [toString]. So a tree whose evaluation throws can
    still be rendered, and the other way round. *)
Theorem X10_rendering_and_evaluation_do_not_mix
    (C : value -> value -> M value)
    (rl rl' tl tl' rr rr' tr tr' : property value) (n n' : value)
    (s0 s0' s1 s1' : State) :
  In C [Add; Subtract; Multiply; Divide] ->
  C (Obj rl tl) (Obj rr tr) s0 = (Return n, s0') ->
  (C (Obj rl' tl) (Obj rr' tr) s1 = (Return n', s1') ->
   forall s, call_toString n s = call_toString n' s)
  /\ (C (Obj rl tl') (Obj rr tr') s1 = (Return n', s1') ->
      forall s, call_result n s = call_result n' s).
Proof.
  intros [<- | [<- | [<- | [<- | []]]]] HC;
    [ rewrite Add_run in HC | rewrite Subtract_run in HC
    | rewrite Multiply_run in HC | rewrite Divide_run in HC ];
    (destruct (has_result (Obj rl tl) && has_result (Obj rr tr)); [| discriminate]).
  4: destruct (divisor_check (Obj rr tr) s0) as [[u | e] s2]; [| discriminate].
  all: inversion HC; subst; split; intro HC';
    [ rewrite ?Add_run, ?Subtract_run, ?Multiply_run, ?Divide_run in HC'
    | rewrite ?Add_run, ?Subtract_run, ?Multiply_run, ?Divide_run in HC' ].
  all: match type of HC' with
       | (if ?c then _ else _) = _ => destruct c; [| discriminate]
       end.
  all: try match type of HC' with
           | match ?d with _ => _ end = _ => destruct d as [[u' | e'] s2']; [| discriminate]
           end.
  all: inversion HC'; subst; intro s; reflexivity.
Qed.

End Compositions.

(* ================================================================= *)
(** ** These properties at work *)

(** [{ result: () => "1", toString: () => "1" }] *)
Definition one_as_text {host : Host} : value :=
  Obj (Method (ret (Prim (Str "1")))) (Method (ret (Prim (Str "1")))).

(** [Divide(Value(1), Add(Subtract(Value(7), Value(8)), Value(1)))] fails
    with the zero-divisor error of its divisor, and the expression of
    [tree.js] is evaluated to a node. *)
Lemma X1_witness :
  construct (host := plain)
    (EDivide (EValue 1) (EAdd (ESubtract (EValue 7) (EValue 8)) (EValue 1))) tt
  = (Throw (zero_divisor "((7 - 8) + 1)"), tt)
  /\ exists n,
       construct (host := plain)
         (EDivide (EAdd (EValue 7) (EMultiply (ESubtract (EValue 3) (EValue 2)) (EValue 5)))
                  (EValue 6)) tt
       = (Return n, tt)
       /\ built n
       /\ evaluates_to n 2
       /\ renders_to n "((7 + ((3 - 2) x 5)) ÷ 6)".
Proof.
  split.
  - apply (X1_construct_characterised (host := plain)). reflexivity.
  - exact (proj1 (X1_construct_characterised (host := plain)
                    (EDivide (EAdd (EValue 7)
                                (EMultiply (ESubtract (EValue 3) (EValue 2)) (EValue 5)))
                             (EValue 6)) tt) eq_refl).
Defined.

(** The tree of the composition root stands for an expression. *)
Lemma X2_witness :
  exists n e,
    tree (host := plain) tt = (Return n, tt)
    /\ first_error e = None
    /\ evaluates_to n (eval e) /\ renders_to n (show e).
Proof.
  destruct (tree_built (host := plain) tt) as [n [Hn B]].
  destruct (X2_built_nodes_denote_expressions (host := plain) n B) as [e He].
  exists n, e. split; [exact Hn | exact He].
Defined.

(** [Add(l, r)] where [l.result()] throws and [r] logs its calls: the
    evaluation throws what [l] throws and the log stays empty. *)
Lemma X3_witness :
  exists n,
    Add (host := logging) throwing (probe "r" 1) [] = (Return n, [])
    /\ call_result (host := logging) n [] = (Throw (Error "boom"), []).
Proof.
  eexists. split; [reflexivity |].
  eapply (fun n H => proj1 (X3_evaluation_stops_at_first_throw (host := logging)
                              throwing (probe "r" 1) n (Error "boom") [] [] H)).
  - exists [], []. left. reflexivity.
  - reflexivity.
Defined.

(** [Add(l, r)] where [l] has no [toString] and [r] logs its calls: the
    rendering throws and the log stays empty. *)
Lemma X4_witness :
  exists n,
    Add (host := logging) unprintable_zero (probe "r" 1) [] = (Return n, [])
    /\ call_toString (host := logging) n []
       = (Throw (TypeError "toString is not a function"), []).
Proof.
  eexists. split; [reflexivity |].
  eapply (fun n H => proj1 (X4_rendering_stops_at_first_throw (host := logging)
                              unprintable_zero (probe "r" 1) n _ [] [] H)).
  - exists [], []. left. reflexivity.
  - reflexivity.
Defined.

(** The node of [Add(o, Value(2))], whose evaluation throws, is an operand
    like any other. *)
Lemma X5_witness :
  exists two a n,
    Value (host := plain) (num 2) tt = (Return two, tt)
    /\ Add (host := plain) throwing two tt = (Return a, tt)
    /\ Multiply (host := plain) a two tt = (Return n, tt).
Proof.
  epose proof (eq_refl : Value (host := plain) (num 2) tt = (Return _, tt)) as H2.
  lazymatch type of H2 with
  | _ = (Return ?two, _) =>
      epose proof (eq_refl : Add (host := plain) throwing two tt = (Return _, tt)) as HA;
      lazymatch type of HA with
      | _ = (Return ?a, _) =>
          assert (Ha : returned (host := plain) a)
            by (right; exists throwing, two, tt, tt; left; exact HA);
          assert (Hb : returned (host := plain) two)
            by (left; exists (num 2), tt, tt; exact H2);
          destruct (X5_returned_nodes_are_operands (host := plain) a two tt Ha Hb)
            as [_ [_ [[n Hn] _]]];
          exists two, a, n; split; [exact H2 | split; [exact HA | exact Hn]]
      end
  end.
Defined.

(** [Add(o, Value(2))], where [o.result()] returns the string 1, evaluates
    to the string 12. *)
Lemma X6_witness :
  exists two n,
    Value (host := plain) (num 2) tt = (Return two, tt)
    /\ Add (host := plain) one_as_text two tt = (Return n, tt)
    /\ call_result (host := plain) n tt = (Return (Prim (Str "12")), tt).
Proof.
  do 2 eexists. split; [reflexivity |].
  lazymatch goal with
  | |- Add ?l ?r _ = _ /\ _ =>
      split;
      [ reflexivity
      | exact (X6_add_concatenates_strings (host := plain) l r _ (Str "1") (Number 2)
                 "1" "2" tt tt tt tt tt eq_refl eq_refl eq_refl
                 (or_introl (ex_intro _ "1" eq_refl)) eq_refl eq_refl) ]
  end.
Defined.

(** [Value(Value(1))] fails, and the message quotes 1. *)
Lemma X7_witness :
  exists one,
    Value (host := plain) (num 1) tt = (Return one, tt)
    /\ Value (host := plain) one tt = (Throw (invalid_literal "1"), tt).
Proof.
  eexists. split; [reflexivity |].
  apply (X7_literal_of_a_node_fails (host := plain)); [reflexivity |].
  intro s. reflexivity.
Defined.

(** The construction and one evaluation of [Divide(l, r)] on two logging
    objects call [r.result()], [l.result()] and [r.result()] again. *)
Lemma X9_witness :
  (n <- Divide (host := logging) (probe "l" 6) (probe "r" 3) ;; call_result n) []
  = (Return (num 2), ["r.result"; "l.result"; "r.result"]).
Proof.
  exact (X9_divisor_is_evaluated_again (host := logging)
           (probe "l" 6) (probe "r" 3) (num 3) (num 6) (num 3)
           [] ["r.result"] ["r.result"; "l.result"] ["r.result"; "l.result"; "r.result"]
           eq_refl eq_refl eq_refl eq_refl).
Defined.

(** [Add(o, q)], where [o.result()] throws, renders like [Add(p, q)], where
    [p] has the [toString] of [o] and a [result] that returns. *)
Lemma X10_witness :
  exists n n',
    Add (host := plain)
      (Obj (Method (throw (Error "boom"))) (Method (ret (Prim (Str "boom")))))
      (Obj (Method (ret (num 2))) (Method (ret (Prim (Str "2"))))) tt
    = (Return n, tt)
    /\ Add (host := plain)
         (Obj (Method (ret (num 1))) (Method (ret (Prim (Str "boom")))))
         (Obj (Method (ret (num 2))) (Method (ret (Prim (Str "2"))))) tt
       = (Return n', tt)
    /\ call_toString (host := plain) n tt = call_toString (host := plain) n' tt
    /\ call_toString (host := plain) n tt = (Return (Prim (Str "(boom + 2)")), tt).
Proof.
  epose proof (eq_refl : Add (host := plain)
                           (Obj (Method (throw (Error "boom")))
                                (Method (ret (Prim (Str "boom")))))
                           (Obj (Method (ret (num 2))) (Method (ret (Prim (Str "2")))))
                           tt = (Return _, tt)) as HA.
  epose proof (eq_refl : Add (host := plain)
                           (Obj (Method (ret (num 1)))
                                (Method (ret (Prim (Str "boom")))))
                           (Obj (Method (ret (num 2))) (Method (ret (Prim (Str "2")))))
                           tt = (Return _, tt)) as HA'.
  lazymatch type of HA with
  | _ = (Return ?n, _) =>
      lazymatch type of HA' with
      | _ = (Return ?n', _) =>
          exists n, n';
          split; [exact HA | split; [exact HA' | split]];
          [ exact (proj1 (X10_rendering_and_evaluation_do_not_mix (host := plain)
                            Add _ _ _ (Data Undefined) _ _ _ (Data Undefined)
                            n n' tt tt tt tt
                            (or_introl eq_refl) HA) HA' tt)
          | reflexivity ]
      end
  end.
Defined.
